(** * orphan-finder: a shallow embedding of [cmd/orphan-finder/main.go]

    The development follows the source file top to bottom: the library
    functions the tool calls ([strings.Contains], the two regular expressions,
    [encoding/hex], [strconv.ParseInt], [time.Time]), the orphan type, the
    collaborators (storage authority, OCSP generator, logger) as interfaces
    over an explicit world, then [checkDER], [storeParsedLogLine],
    [generateOCSP] and the two commands of [main]. *)

From Stdlib Require Import ZArith List Bool Lia.
From Stdlib Require Import Strings.String Strings.Ascii Strings.Byte.
From Stdlib Require Import Numbers.DecimalString.
Import ListNotations.

Local Open Scope string_scope.
Local Open Scope Z_scope.

(** ** Machine integers *)

Module Int64.

Definition modulus : Z := 2 ^ 64.
Definition max : Z := 2 ^ 63 - 1.
Definition min : Z := - 2 ^ 63.

(** Two's complement wrap-around of Go's [int64] arithmetic. *)
Definition wrap (z : Z) : Z := (z + 2 ^ 63) mod modulus - 2 ^ 63.

Definition in_range (z : Z) : Prop := min <= z <= max.

End Int64.

(** ** Strings (Go strings are byte sequences) *)

Module Strings.

(** The double quote character, for messages that quote their argument. *)
Definition dquote : string := String (ascii_of_nat 34) EmptyString.

(** [strings.HasPrefix(s, p)]. *)
Fixpoint HasPrefix (s p : string) : bool :=
  match p, s with
  | EmptyString, _ => true
  | String _ _, EmptyString => false
  | String a p', String b s' => Ascii.eqb a b && HasPrefix s' p'
  end.

(** [strings.TrimPrefix] as a partial function: the rest of [s] after [p]. *)
Fixpoint stripPrefix (p s : string) : option string :=
  match p, s with
  | EmptyString, _ => Some s
  | String _ _, EmptyString => None
  | String a p', String b s' =>
      if Ascii.eqb a b then stripPrefix p' s' else None
  end.

(** [strings.Contains(s, sub)]: [sub] occurs at some offset of [s]. *)
Fixpoint Contains (s sub : string) : bool :=
  HasPrefix s sub ||
  match s with
  | EmptyString => false
  | String _ s' => Contains s' sub
  end.

(** [strings.Split(s, "\n")]: the segments between line feeds; the empty
    string gives one empty segment. *)
Fixpoint SplitLines (s : string) : list string :=
  match s with
  | EmptyString => [EmptyString]
  | String c s' =>
      if Ascii.eqb c (ascii_of_nat 10) then EmptyString :: SplitLines s'
      else match SplitLines s' with
           | h :: r => String c h :: r
           | [] => [String c EmptyString]
           end
  end.

Definition isEmpty (s : string) : bool :=
  match s with EmptyString => true | _ => false end.

(** The maximal prefix of [s] whose characters satisfy [p], and the rest. *)
Fixpoint span (p : ascii -> bool) (s : string) : string * string :=
  match s with
  | EmptyString => (EmptyString, EmptyString)
  | String c s' =>
      if p c then let '(g, r) := span p s' in (String c g, r)
      else (EmptyString, s)
  end.

Fixpoint forallb (p : ascii -> bool) (s : string) : bool :=
  match s with
  | EmptyString => true
  | String c s' => p c && forallb p s'
  end.

End Strings.

(** ** The two regular expressions *)

Module Regexp.
Import Strings.

Definition between (lo hi c : ascii) : bool :=
  (nat_of_ascii lo <=? nat_of_ascii c)%nat && (nat_of_ascii c <=? nat_of_ascii hi)%nat.

(** The class [[0-9a-f]]. *)
Definition lowerHex (c : ascii) : bool :=
  between "0" "9" c || between "a" "f" c.

(** The class [\d] (ASCII digits in Go's RE2 syntax). *)
Definition digit (c : ascii) : bool := between "0" "9" c.

(** A match of [key\[(cls+)\]] anchored at the start of [s]: the whole match
    and the group.  The class never contains the closing bracket, so the
    greedy [+] can only stop at the end of the maximal run and backtracking
    finds nothing more. *)
Definition matchHere (key : string) (cls : ascii -> bool) (s : string)
  : option (string * string) :=
  match stripPrefix (key ++ "[") s with
  | Some rest =>
      match span cls rest with
      | (String c g, String "]" _) =>
          Some (key ++ "[" ++ String c g ++ "]", String c g)
      | _ => None
      end
  | None => None
  end.

(** [re.FindStringSubmatch(s)] for [re = key\[(cls+)\]]: the leftmost match
    as the slice [[whole; group]], or the nil slice. *)
Fixpoint FindStringSubmatch (key : string) (cls : ascii -> bool) (s : string)
  : list string :=
  match matchHere key cls s with
  | Some (whole, group) => [whole; group]
  | None =>
      match s with
      | EmptyString => []
      | String _ s' => FindStringSubmatch key cls s'
      end
  end.

End Regexp.

(** ** [encoding/hex] and [strconv] *)

Module Hex.
Import Regexp.

(** [fromHexChar]: the value of a hexadecimal digit of either case. *)
Definition fromHexChar (c : ascii) : option N :=
  if between "0" "9" c then Some (N_of_ascii c - N_of_ascii "0")%N
  else if between "a" "f" c then Some (N_of_ascii c - N_of_ascii "a" + 10)%N
  else if between "A" "F" c then Some (N_of_ascii c - N_of_ascii "A" + 10)%N
  else None.

Definition ErrLength : string := "encoding/hex: odd length hex string".

(** [InvalidByteError(c).Error()]; the [%#U] rendering of the byte is
    abridged to the byte itself. *)
Definition InvalidByteError (c : ascii) : string :=
  "encoding/hex: invalid byte: " ++ String c EmptyString.

(** [(a << 4) | b] as a byte. *)
Definition pack (a b : N) : byte :=
  byte_of_ascii (ascii_of_N (N.lor (N.shiftl a 4) b)).

(** [hex.DecodeString]: pairs of digits become bytes; an invalid digit is
    reported before an odd length. *)
Fixpoint DecodeString (s : string) : string + list byte :=
  match s with
  | EmptyString => inr []
  | String a EmptyString =>
      match fromHexChar a with
      | None => inl (InvalidByteError a)
      | Some _ => inl ErrLength
      end
  | String a (String b s') =>
      match fromHexChar a with
      | None => inl (InvalidByteError a)
      | Some x =>
          match fromHexChar b with
          | None => inl (InvalidByteError b)
          | Some y =>
              match DecodeString s' with
              | inl e => inl e
              | inr bs => inr (pack x y :: bs)
              end
          end
      end
  end.

End Hex.

Module Strconv.
Import Strings Regexp.

Definition ErrSyntax (s : string) : string :=
  "strconv.ParseInt: parsing " ++ dquote ++ s ++ dquote ++ ": invalid syntax".
Definition ErrRange (s : string) : string :=
  "strconv.ParseInt: parsing " ++ dquote ++ s ++ dquote ++ ": value out of range".

(** The value of a run of decimal digits, most significant first. *)
Fixpoint digits (acc : Z) (s : string) : option Z :=
  match s with
  | EmptyString => Some acc
  | String c s' =>
      if digit c
      then digits (10 * acc + (Z.of_nat (nat_of_ascii c) - 48)) s'
      else None
  end.

(** [strconv.ParseInt(s, 10, 64)]: an optional sign and at least one digit;
    values outside [int64] are range errors. *)
Definition ParseInt (s : string) : string + Z :=
  let '(neg, body) :=
    match s with
    | String "+" t => (false, t)
    | String "-" t => (true, t)
    | _ => (false, s)
    end in
  match body with
  | EmptyString => inl (ErrSyntax s)
  | _ =>
      match digits 0 body with
      | None => inl (ErrSyntax s)
      | Some n =>
          if neg then (if n <=? 2 ^ 63 then inr (- n) else inl (ErrRange s))
          else (if n <=? Int64.max then inr n else inl (ErrRange s))
      end
  end.

End Strconv.

(** ** [time.Time] and [time.Duration] *)

Module Time.

(** A [time.Duration] is an [int64] count of nanoseconds. *)
Definition Duration := Z.
Definition Nanosecond : Duration := 1.
Definition Second : Duration := 1000000000 * Nanosecond.
Definition Minute : Duration := 60 * Second.
Definition Hour : Duration := 60 * Minute.

(** The instant a [time.Time] denotes: seconds since the Unix epoch and the
    nanosecond within the second, [0 <= nsec < 10^9].  Certificate validity
    times have four-digit years, far from the ends of the [int64] seconds
    counter, so the seconds are kept as an integer. *)
Record Time : Type := mkTime { sec : Z; nsec : Z }.

(** [t.Add(d)]: Go's [/] and [%] truncate towards zero. *)
Definition Add (t : Time) (d : Duration) : Time :=
  let dsec := Z.quot d 1000000000 in
  let n := nsec t + Z.rem d 1000000000 in
  if 1000000000 <=? n then mkTime (sec t + (dsec + 1)) (n - 1000000000)
  else if n <? 0 then mkTime (sec t + (dsec - 1)) (n + 1000000000)
  else mkTime (sec t + dsec) n.

(** [t.UnixNano()]: computed in [int64], wrapping outside years 1678-2262. *)
Definition UnixNano (t : Time) : Z :=
  Int64.wrap (sec t * 1000000000 + nsec t).

(** Days from 1970-01-01 to the given proleptic Gregorian date. *)
Definition daysFromCivil (y m d : Z) : Z :=
  let y' := if m <=? 2 then y - 1 else y in
  let era := y' / 400 in
  let yoe := y' - era * 400 in
  let mp := (m + 9) mod 12 in
  let doy := (153 * mp + 2) / 5 + d - 1 in
  let doe := yoe * 365 + yoe / 4 - yoe / 100 + doy in
  era * 146097 + doe - 719468.

(** [time.Date(y, m, d, hh, mm, ss, ns, time.UTC)] for in-range fields. *)
Definition Date (y m d hh mm ss ns : Z) : Time :=
  mkTime (daysFromCivil y m d * 86400 + hh * 3600 + mm * 60 + ss) ns.

(** The exact count of nanoseconds since the epoch. *)
Definition nanos (t : Time) : Z := sec t * 1000000000 + nsec t.

Definition wellFormed (t : Time) : Prop := 0 <= nsec t < 1000000000.

End Time.

(** ** X.509 certificates, as far as the tool reads them *)

Module X509.

(** [asn1.ObjectIdentifier]: a slice of integers. *)
Definition ObjectIdentifier := list Z.

(** [oi.Equal(other)]: same length and same components. *)
Fixpoint Equal (oi other : ObjectIdentifier) : bool :=
  match oi, other with
  | [], [] => true
  | x :: oi', y :: other' => (x =? y) && Equal oi' other'
  | _, _ => false
  end.

(** [pkix.Extension]. *)
Record Extension : Type := mkExtension {
  Id : ObjectIdentifier;
  Critical : bool;
  Value : list byte
}.

(** The fields of [x509.Certificate] that the tool reads. *)
Record Certificate : Type := mkCertificate {
  SerialNumber : Z;
  NotBefore : Time.Time;
  Extensions : list Extension
}.

End X509.

(** ** The orphan type *)

(** [orphanType] with its three constants. *)
Inductive orphanType : Type :=
| unknownOrphan
| certOrphan
| precertOrphan.

(** [func (t orphanType) String() string]. *)
Definition orphanType_String (t : orphanType) : string :=
  match t with
  | certOrphan => "certificate"
  | precertOrphan => "precertificate"
  | unknownOrphan => "unknown"
  end.

Definition orphanType_eqb (a b : orphanType) : bool :=
  match a, b with
  | unknownOrphan, unknownOrphan => true
  | certOrphan, certOrphan => true
  | precertOrphan, precertOrphan => true
  | _, _ => false
  end.

(** RFC 6962 Section 3.1, the CT poison extension. *)
Definition poisonExt : X509.ObjectIdentifier :=
  [1; 3; 6; 1; 4; 1; 11129; 2; 4; 3].

(** [orphanTypeForCert]: a nil certificate is [None].  The loop returns at
    the first extension whose id equals the poison id. *)
Definition orphanTypeForCert (cert : option X509.Certificate) : orphanType :=
  match cert with
  | None => unknownOrphan
  | Some c =>
      if existsb (fun ext => X509.Equal (X509.Id ext) poisonExt) (X509.Extensions c)
      then precertOrphan
      else certOrphan
  end.

(** [derOrphan] and [regOrphan]. *)
Definition derOrphan (line : string) : list string :=
  Regexp.FindStringSubmatch "cert=" Regexp.lowerHex line.
Definition regOrphan (line : string) : list string :=
  Regexp.FindStringSubmatch "regID=" Regexp.digit line.

(** The labels and the marker [storeParsedLogLine] looks for:
    [fmt.Sprintf("orphaning %s", t)] and ["cert="]. *)
Definition orphaningLabel (t : orphanType) : string :=
  "orphaning " ++ orphanType_String t.
Definition derMarker : string := "cert=".

(** Modelled from the spec: the constant [core.OCSPStatusGood] is declared
    outside this file; the status of a regenerated response is fixed to
    "good". *)
Definition OCSPStatusGood : string := "good".

(** ** Requests, events and the world *)

(** [capb.GenerateOCSPRequest]. *)
Record GenerateOCSPRequest : Type := mkGenerateOCSPRequest {
  CertDER : list byte;
  Status : string;
  Reason : Z;
  RevokedAt : Z
}.

(** [sapb.AddCertificateRequest]. *)
Record AddCertificateRequest : Type := mkAddCertificateRequest {
  Der : list byte;
  RegID : Z;
  Ocsp : list byte;
  Issued : Z
}.

(** The three logger methods the tool calls. *)
Inductive level : Type := AuditErr | Err | Info.

(** What the tool does to the outside: calls to the collaborators and log
    messages, in the order they happen. *)
Inductive event : Type :=
| CallGetCertificate (serial : string)
| CallGetPrecertificate (serial : string)
| CallGenerateOCSP (req : GenerateOCSPRequest)
| CallAddCertificate (der : list byte) (regID : Z) (ocsp : list byte)
                     (issued : Time.Time)
| CallAddPrecertificate (req : AddCertificateRequest)
| Log (lvl : level) (msg : string).

Definition isRemoteCall (e : event) : bool :=
  match e with Log _ _ => false | _ => true end.
Definition isLookup (e : event) : bool :=
  match e with
  | CallGetCertificate _ | CallGetPrecertificate _ => true
  | _ => false
  end.
Definition isOCSP (e : event) : bool :=
  match e with CallGenerateOCSP _ => true | _ => false end.
Definition isInsert (e : event) : bool :=
  match e with
  | CallAddCertificate _ _ _ _ | CallAddPrecertificate _ => true
  | _ => false
  end.
Definition isPrecertInsert (e : event) : bool :=
  match e with CallAddPrecertificate _ => true | _ => false end.
Definition isLog (e : event) : bool :=
  match e with Log _ _ => true | _ => false end.

(** The number of events of a kind in a trace. *)
Definition count (p : event -> bool) (tr : list event) : nat :=
  List.length (filter p tr).

(** ** The collaborators

    [World] is the state of the remote services and [RemoteError] the type of
    the errors they return. *)

(** The interface [certificateStorage]; a [nil] error is [None].  The
    results other than the error are never read by this file. *)
Record certificateStorage (World RemoteError : Type) : Type := mkCertificateStorage {
  AddCertificate :
    list byte -> Z -> list byte -> Time.Time -> World -> option RemoteError * World;
  AddPrecertificate :
    AddCertificateRequest -> World -> option RemoteError * World;
  GetCertificate : string -> World -> option RemoteError * World;
  GetPrecertificate : string -> World -> option RemoteError * World
}.
Arguments mkCertificateStorage {World RemoteError}.
Arguments AddCertificate {World RemoteError}.
Arguments AddPrecertificate {World RemoteError}.
Arguments GetCertificate {World RemoteError}.
Arguments GetPrecertificate {World RemoteError}.

(** The interface [ocspGenerator]; the response bytes on success. *)
Record ocspGenerator (World RemoteError : Type) : Type := mkOcspGenerator {
  GenerateOCSP : GenerateOCSPRequest -> World -> (RemoteError + list byte) * World
}.
Arguments mkOcspGenerator {World RemoteError}.
Arguments GenerateOCSP {World RemoteError}.

(** The program state: the world of the remote services and the trace of
    events so far, oldest first. *)
Record State (World : Type) : Type := mkState {
  world : World;
  trace : list event
}.
Arguments mkState {World}.
Arguments world {World}.
Arguments trace {World}.

(** [st] after one more log message. *)
Definition logged {World} (st : State World) (lvl : level) (msg : string)
  : State World :=
  mkState (world st) (trace st ++ [Log lvl msg]).

(** The first two tests of [storeParsedLogLine]: one of the two labels, and
    the marker. *)
Definition hasOrphanLabel (line : string) : bool :=
  Strings.Contains line (orphaningLabel certOrphan) ||
  Strings.Contains line (orphaningLabel precertOrphan).
Definition hasDerMarker (line : string) : bool :=
  Strings.Contains line derMarker.
Definition scannerMatches (line : string) : bool :=
  hasOrphanLabel line && hasDerMarker line.

(** [%d] of an integer. *)
Definition fmtInt (n : Z) : string := NilEmpty.string_of_int (Z.to_int n).




(** The number of lines the [parse-ca-log] loop does not skip. *)
Definition nonEmptyLines (lines : list string) : nat :=
  List.length (filter (fun l => negb (Strings.isEmpty l)) lines).

(** The events of the existence lookup, by orphan type. *)
Definition lookupCall (typ : orphanType) (serial : string) : list event :=
  match typ with
  | certOrphan => [CallGetCertificate serial]
  | precertOrphan => [CallGetPrecertificate serial]
  | unknownOrphan => []
  end.

(** The events of the insert, by orphan type. *)
Definition insertCall (typ : orphanType) (der : list byte) (regID : Z)
           (response : list byte) (issuedDate : Time.Time) : list event :=
  match typ with
  | certOrphan => [CallAddCertificate der regID response issuedDate]
  | precertOrphan =>
      [CallAddPrecertificate
         (mkAddCertificateRequest der regID response (Time.UnixNano issuedDate))]
  | unknownOrphan => []
  end.

(** ** Test doubles

    Deterministic collaborators with fixed answers over a trivial world, a
    parser that knows two certificates, and a file system with three
    files. *)

Module Double.

Inductive TestError : Type := NotFound | Duplicate | Unavailable.

Definition text (e : TestError) : string :=
  match e with
  | NotFound => "not found"
  | Duplicate => "duplicate entry"
  | Unavailable => "unavailable"
  end.

Definition isNotFound (e : TestError) : bool :=
  match e with NotFound => true | _ => false end.

(** A storage that answers the four operations with the given errors. *)
Definition storage (get getPre add addPre : option TestError)
  : certificateStorage unit TestError :=
  mkCertificateStorage
    (fun _ _ _ _ w => (add, w))
    (fun _ w => (addPre, w))
    (fun _ w => (get, w))
    (fun _ w => (getPre, w)).

(** An empty storage whose inserts succeed. *)
Definition emptyStorage : certificateStorage unit TestError :=
  storage (Some NotFound) (Some NotFound) None None.

(** A storage that already holds every serial. *)
Definition fullStorage : certificateStorage unit TestError :=
  storage None None (Some Duplicate) (Some Duplicate).

(** A storage whose lookups miss and whose inserts hit a duplicate. *)
Definition racedStorage : certificateStorage unit TestError :=
  storage (Some NotFound) (Some NotFound) (Some Duplicate) (Some Duplicate).

Definition ocsp (r : TestError + list byte) : ocspGenerator unit TestError :=
  mkOcspGenerator (fun _ w => (r, w)).

Definition goodOCSP : ocspGenerator unit TestError := ocsp (inr ["O"; "K"]%byte).
Definition downOCSP : ocspGenerator unit TestError := ocsp (inl Unavailable).

(** A final certificate and a precertificate, valid from
    2020-01-01T00:00:00Z. *)
Definition cert2020 : X509.Certificate :=
  X509.mkCertificate 1 (Time.Date 2020 1 1 0 0 0 0) [].
Definition precert2020 : X509.Certificate :=
  X509.mkCertificate 2 (Time.Date 2020 1 1 0 0 0 0)
    [X509.mkExtension [2; 5; 29; 19] true ["0"]%byte;
     X509.mkExtension poisonExt true [x05; x00]%byte].

(** The DER [01] is [cert2020], the DER [02] is [precert2020]. *)
Definition parse (der : list byte) : string + X509.Certificate :=
  match der with
  | [b] =>
      if Byte.eqb b x01 then inr cert2020
      else if Byte.eqb b x02 then inr precert2020
      else inl "asn1: structure error"
  | _ => inl "asn1: syntax error"
  end.

Definition serial (n : Z) : string := fmtInt n.

Definition nl : string := String (ascii_of_nat 10) EmptyString.

Definition certLine : string := "orphaning certificate: cert=[01], regID=[7]".
Definition precertLine : string := "orphaning precertificate: cert=[02], regID=[7]".

(** A line without a registration id, one with an uppercase digit in its
    payload, one with two payloads, and one that is no orphan record. *)
Definition bareLine : string := "orphaning certificate: cert=[01]".
Definition twiceLine : string := "orphaning certificate: cert=[0A] cert=[01], regID=[7]".
Definition otherLine : string := "started".

Definition readFile (path : string) : string + list byte :=
  if String.eqb path "cert.der" then inr [x01]%byte
  else if String.eqb path "precert.der" then inr [x02]%byte
  else if String.eqb path "ca.log"
       then inr (list_byte_of_string (certLine ++ nl ++ "started" ++ nl ++ precertLine ++ nl))
  else inl "no such file or directory".

Definition start : State unit := mkState tt [].

End Double.

(** A storage that remembers: an insert records the serial of the DER it
    is given, and a lookup finds the recorded serials. *)

Module Memory.

Record World : Type := mkWorld {
  certs : list string;
  precerts : list string
}.

Definition has (s : string) (l : list string) : bool :=
  existsb (String.eqb s) l.

Definition serialOf (der : list byte) : option string :=
  match Double.parse der with
  | inr c => Some (Double.serial (X509.SerialNumber c))
  | inl _ => None
  end.

Definition find (s : string) (l : list string) : option Double.TestError :=
  if has s l then None else Some Double.NotFound.

Definition storage : certificateStorage World Double.TestError :=
  mkCertificateStorage
    (fun der _ _ _ w =>
       match serialOf der with
       | Some s =>
           if has s (certs w) then (Some Double.Duplicate, w)
           else (None, mkWorld (s :: certs w) (precerts w))
       | None => (Some Double.Unavailable, w)
       end)
    (fun req w =>
       match serialOf (Der req) with
       | Some s =>
           if has s (precerts w) then (Some Double.Duplicate, w)
           else (None, mkWorld (certs w) (s :: precerts w))
       | None => (Some Double.Unavailable, w)
       end)
    (fun s w => (find s (certs w), w))
    (fun s w => (find s (precerts w), w)).

Definition ocsp : ocspGenerator World Double.TestError :=
  mkOcspGenerator (fun _ w => (inr ["O"; "K"]%byte, w)).

Definition start : State World := mkState (mkWorld [] []) [].

End Memory.

Section OrphanFinder.

(** The state of the remote services. *)
Variable World : Type.

(** Errors returned by the collaborators, their [Error()] text and
    [berrors.Is(err, berrors.NotFound)]. *)
Variable RemoteError : Type.
Variable ErrorText : RemoteError -> string.
Variable IsNotFound : RemoteError -> bool.

(** [x509.ParseCertificate] (the error as its text) and
    [core.SerialToString]. *)
Variable ParseCertificate : list byte -> string + X509.Certificate.
Variable SerialToString : Z -> string.

(** [ioutil.ReadFile]. *)
Variable ReadFile : string -> string + list byte.

(** The package variable [backdateDuration], assigned once by [setup]. *)
Variable backdateDuration : Time.Duration.

(** Error values: the sentinel [errAlreadyExists] (compared by identity),
    values made by [errors.New] or [fmt.Errorf], and errors returned by a
    collaborator. *)
Inductive error : Type :=
| errAlreadyExists
| newError (msg : string)
| remoteError (e : RemoteError).

Definition Error (e : error) : string :=
  match e with
  | errAlreadyExists => "Certificate already exists in DB"
  | newError msg => msg
  | remoteError r => ErrorText r
  end.

Definition isErrAlreadyExists (e : error) : bool :=
  match e with errAlreadyExists => true | _ => false end.

(** [berrors.Is(err, berrors.NotFound)]: only a collaborator's error can
    carry the not-found type. *)
Definition berrorsIsNotFound (e : error) : bool :=
  match e with remoteError r => IsNotFound r | _ => false end.

Definition M (A : Type) : Type := State World -> A * State World.
Definition ret {A} (a : A) : M A := fun st => (a, st).
Definition bind {A B} (m : M A) (k : A -> M B) : M B :=
  fun st => let '(a, st') := m st in k a st'.

Notation "x <- m ;; k" := (bind m (fun x => k))
  (at level 61, m at next level, right associativity).
Notation "m ;;; k" := (bind m (fun _ => k))
  (at level 61, right associativity).

Definition emit (e : event) : M unit :=
  fun st => (tt, mkState (world st) (trace st ++ [e])).

(** A call to a collaborator: recorded, then run on the world. *)
Definition call {A} (e : event) (f : World -> A * World) : M A :=
  fun st =>
    let '(a, w) := f (world st) in
    (a, mkState w (trace st ++ [e])).

Definition AuditErrf (msg : string) : M unit := emit (Log AuditErr msg).
Definition Errf (msg : string) : M unit := emit (Log Err msg).
Definition Infof (msg : string) : M unit := emit (Log Info msg).

Definition liftErr (r : option RemoteError) : option error :=
  option_map remoteError r.

(** The existence lookup of [checkDER]: the [switch] on the orphan type. *)
Definition lookup (sai : certificateStorage World RemoteError) (orphanTyp : orphanType)
           (orphanSerial : string) : M (option error) :=
  match orphanTyp with
  | certOrphan =>
      r <- call (CallGetCertificate orphanSerial)
                (GetCertificate sai orphanSerial) ;;
      ret (liftErr r)
  | precertOrphan =>
      r <- call (CallGetPrecertificate orphanSerial)
                (GetPrecertificate sai orphanSerial) ;;
      ret (liftErr r)
  | unknownOrphan => ret (Some (newError "unknown orphan type"))
  end.

(** [checkDER].  The Go triple [(cert, typ, err)] is a sum: on the left
    [err] is non-nil (and the certificate nil), on the right [err] is nil
    and the certificate is the parsed one. *)
Definition checkDER (sai : certificateStorage World RemoteError) (der : list byte)
  : M (orphanType * error + X509.Certificate * orphanType) :=
  match ParseCertificate der with
  | inl err =>
      ret (inl (unknownOrphan, newError ("Failed to parse orphan DER: " ++ err)))
  | inr orphan =>
      let orphanSerial := SerialToString (X509.SerialNumber orphan) in
      let orphanTyp := orphanTypeForCert (Some orphan) in
      err <- lookup sai orphanTyp orphanSerial ;;
      match err with
      | None => ret (inl (orphanTyp, errAlreadyExists))
      | Some e =>
          if berrorsIsNotFound e then ret (inr (orphan, orphanTyp))
          else ret (inl (orphanTyp,
                         newError ("Existing " ++ orphanType_String orphanTyp
                                   ++ " lookup failed: " ++ Error e)))
      end
  end.

(** [generateOCSP]: a fresh response with status good. *)
Definition generateOCSP (ca : ocspGenerator World RemoteError) (certDER : list byte)
  : M (RemoteError + list byte) :=
  let req := mkGenerateOCSPRequest certDER OCSPStatusGood 0 0 in
  call (CallGenerateOCSP req) (GenerateOCSP ca req).

(** The insert [switch] shared by [storeParsedLogLine] and the [parse-der]
    command: the certificate insert takes the time itself, the
    precertificate insert its [UnixNano]. *)
Definition store (sa : certificateStorage World RemoteError) (typ : orphanType)
           (der : list byte) (regID : Z) (response : list byte)
           (issuedDate : Time.Time) : M (option error) :=
  match typ with
  | certOrphan =>
      r <- call (CallAddCertificate der regID response issuedDate)
                (AddCertificate sa der regID response issuedDate) ;;
      ret (liftErr r)
  | precertOrphan =>
      let issued := Time.UnixNano issuedDate in
      let req := mkAddCertificateRequest der regID response issued in
      r <- call (CallAddPrecertificate req) (AddPrecertificate sa req) ;;
      ret (liftErr r)
  | unknownOrphan => ret (Some (newError "unknown orphan type"))
  end.

(** [storeParsedLogLine]: the result is [(found, added, typ)]. *)
Definition storeParsedLogLine (sa : certificateStorage World RemoteError) (ca : ocspGenerator World RemoteError)
           (line : string) : M (bool * bool * orphanType) :=
  if negb (Strings.Contains line (orphaningLabel certOrphan)) &&
     negb (Strings.Contains line (orphaningLabel precertOrphan))
  then ret (false, false, unknownOrphan)
  else if negb (Strings.Contains line derMarker)
  then ret (false, false, unknownOrphan)
  else
    match derOrphan line with
    | _ :: derStr1 :: _ =>
        match Hex.DecodeString derStr1 with
        | inl err =>
            AuditErrf ("Couldn't decode hex: " ++ err ++ ", [" ++ line ++ "]") ;;;
            ret (true, false, unknownOrphan)
        | inr der =>
            r <- checkDER sa der ;;
            match r with
            | inl (typ, err) =>
                let logFunc := if isErrAlreadyExists err then Infof else Errf in
                logFunc (Error err ++ ", [" ++ line ++ "]") ;;;
                ret (true, false, typ)
            | inr (cert, typ) =>
                match regOrphan line with
                | _ :: regStr1 :: _ =>
                    match Strconv.ParseInt regStr1 with
                    | inl err =>
                        AuditErrf ("Couldn't parse regID: " ++ err
                                   ++ ", [" ++ line ++ "]") ;;;
                        ret (true, false, typ)
                    | inr regID =>
                        resp <- generateOCSP ca der ;;
                        match resp with
                        | inl err =>
                            AuditErrf ("Couldn't generate OCSP: " ++ ErrorText err
                                       ++ ", [" ++ line ++ "]") ;;;
                            ret (true, false, typ)
                        | inr response =>
                            let issuedDate :=
                              Time.Add (X509.NotBefore cert) backdateDuration in
                            err <- store sa typ der regID response issuedDate ;;
                            match err with
                            | Some e =>
                                AuditErrf ("Failed to store certificate: " ++ Error e
                                           ++ ", [" ++ line ++ "]") ;;;
                                ret (true, false, typ)
                            | None => ret (true, true, typ)
                            end
                        end
                    end
                | _ =>
                    AuditErrf ("regID variable is empty, [" ++ line ++ "]") ;;;
                    ret (true, false, typ)
                end
            end
        end
    | _ =>
        AuditErrf ("Didn't match regex for cert: " ++ line) ;;;
        ret (true, false, unknownOrphan)
    end.

(** *** The [parse-ca-log] and [parse-der] commands of [main] *)

(** The four counters of the [parse-ca-log] loop. *)
Record stats : Type := mkStats {
  certOrphansFound : Z;
  certOrphansAdded : Z;
  precertOrphansFound : Z;
  precertOrphansAdded : Z
}.

Definition noStats : stats := mkStats 0 0 0 0.

(** [*stat++] on an [int64]. *)
Definition incr (n : Z) : Z := Int64.wrap (n + 1).

(** [if found { *foundStat++; if added { *addStat++ } }]. *)
Definition bump (found added : bool) (foundStat addStat : Z) : Z * Z :=
  if found
  then (incr foundStat, if added then incr addStat else addStat)
  else (foundStat, addStat).

(** The loop body after the call: the [switch] selects the pair of counters,
    or logs and continues. *)
Definition tally (c : stats) (r : bool * bool * orphanType) : M stats :=
  let '(found, added, typ) := r in
  match typ with
  | certOrphan =>
      let '(f, a) := bump found added (certOrphansFound c) (certOrphansAdded c) in
      ret (mkStats f a (precertOrphansFound c) (precertOrphansAdded c))
  | precertOrphan =>
      let '(f, a) := bump found added (precertOrphansFound c) (precertOrphansAdded c) in
      ret (mkStats (certOrphansFound c) (certOrphansAdded c) f a)
  | unknownOrphan =>
      Errf ("Found orphan type " ++ orphanType_String typ) ;;;
      ret c
  end.

(** The loop over the lines; empty lines are skipped. *)
Fixpoint processLines (sa : certificateStorage World RemoteError)
         (ca : ocspGenerator World RemoteError)
         (lines : list string) (c : stats) : M stats :=
  match lines with
  | [] => ret c
  | line :: rest =>
      if Strings.isEmpty line then processLines sa ca rest c
      else
        r <- storeParsedLogLine sa ca line ;;
        c' <- tally c r ;;
        processLines sa ca rest c'
  end.

(** How the process ends early: [usage()] or a failed [cmd.FailOnError]. *)
Inductive exit : Type :=
| UsageExit
| FailExit (diagnostic : string).

(** Modelled from the spec: [cmd.FailOnError] is declared outside this file;
    a non-nil error aborts the whole process with a diagnostic made of the
    message and the error. *)
Definition FailOnError {A} (r : string + A) (msg : string) : exit + A :=
  match r with
  | inl err => inl (FailExit (msg ++ ": " ++ err))
  | inr a => inr a
  end.

(** The [parse-ca-log] case of [main], after [setup] and with the flags
    parsed. *)
Definition parseCaLog (sa : certificateStorage World RemoteError)
           (ca : ocspGenerator World RemoteError)
           (logPath : string) : M (exit + stats) :=
  if Strings.isEmpty logPath then ret (inl UsageExit)
  else
    match FailOnError (ReadFile logPath) "Failed to read log file" with
    | inl e => ret (inl e)
    | inr logData =>
        c <- processLines sa ca
               (Strings.SplitLines (string_of_list_byte logData)) noStats ;;
        Infof ("Found " ++ fmtInt (certOrphansFound c)
               ++ " certificate orphans and added "
               ++ fmtInt (certOrphansAdded c) ++ " to the database") ;;;
        Infof ("Found " ++ fmtInt (precertOrphansFound c)
               ++ " precertificate orphans and added "
               ++ fmtInt (precertOrphansAdded c) ++ " to the database") ;;;
        ret (inr c)
    end.

Definition errOf (r : option error) : string + unit :=
  match r with Some e => inl (Error e) | None => inr tt end.

(** The [parse-der] case of [main], after [setup] and with the flags
    parsed. *)
Definition parseDer (sa : certificateStorage World RemoteError)
           (ca : ocspGenerator World RemoteError)
           (derPath : string) (regID : Z) : M (exit + unit) :=
  if Strings.isEmpty derPath || (regID =? 0) then ret (inl UsageExit)
  else
    match FailOnError (ReadFile derPath) "Failed to read DER file" with
    | inl e => ret (inl e)
    | inr der =>
        r <- checkDER sa der ;;
        match r with
        | inl (typ, err) =>
            ret (FailOnError (inl (Error err)) "Pre-AddCertificate checks failed")
        | inr (cert, typ) =>
            let issuedDate :=
              Time.Add (X509.NotBefore cert) (1 * backdateDuration) in
            resp <- generateOCSP ca der ;;
            match resp with
            | inl err => ret (FailOnError (inl (ErrorText err)) "Generating OCSP")
            | inr response =>
                err <- store sa typ der regID response issuedDate ;;
                ret (FailOnError (errOf err) "Failed to add certificate to database")
            end
        end
    end.


(** *** The shape of a line's run

    What one call of [storeParsedLogLine] returns and appends to the trace,
    with the data that ties the events together. *)

(** The DER of a line: the decoded group of the DER pattern. *)
Definition decodes (line : string) (der : list byte) : Prop :=
  exists whole group,
    derOrphan line = [whole; group] /\ Hex.DecodeString group = inr der.

(** The lookup of a parsed certificate: of its type, by its serial. *)
Definition lookupOf (cert : X509.Certificate) : list event :=
  lookupCall (orphanTypeForCert (Some cert))
             (SerialToString (X509.SerialNumber cert)).

(** The insert of a parsed certificate: of its type, with the backdated
    issued time. *)
Definition insertOf (cert : X509.Certificate) (der : list byte) (regID : Z)
           (response : list byte) : list event :=
  insertCall (orphanTypeForCert (Some cert)) der regID response
             (Time.Add (X509.NotBefore cert) backdateDuration).

Definition ocspCall (der : list byte) : event :=
  CallGenerateOCSP (mkGenerateOCSPRequest der OCSPStatusGood 0 0).

Inductive lineShape (line : string)
  : bool * bool * orphanType -> list event -> Prop :=
| ShapeNoMatch :
    lineShape line (false, false, unknownOrphan) []
| ShapeMalformed lvl msg :
    lvl = AuditErr \/ lvl = Err ->
    lineShape line (true, false, unknownOrphan) [Log lvl msg]
| ShapeChecked der cert lvl msg :
    decodes line der -> ParseCertificate der = inr cert ->
    lineShape line (true, false, orphanTypeForCert (Some cert))
              (lookupOf cert ++ [Log lvl msg])
| ShapeOCSPFailed der cert msg :
    decodes line der -> ParseCertificate der = inr cert ->
    lineShape line (true, false, orphanTypeForCert (Some cert))
              (lookupOf cert ++ [ocspCall der; Log AuditErr msg])
| ShapeStoreFailed der cert regID response msg :
    decodes line der -> ParseCertificate der = inr cert ->
    0 <= regID <= Int64.max ->
    lineShape line (true, false, orphanTypeForCert (Some cert))
              (lookupOf cert ++ ocspCall der
                 :: insertOf cert der regID response ++ [Log AuditErr msg])
| ShapeStored der cert regID response :
    decodes line der -> ParseCertificate der = inr cert ->
    0 <= regID <= Int64.max ->
    lineShape line (true, true, orphanTypeForCert (Some cert))
              (lookupOf cert ++ ocspCall der
                 :: insertOf cert der regID response).

(** *** The calls and the counters of each kind *)

Definition isLookupOf (t : orphanType) (e : event) : bool :=
  match t, e with
  | certOrphan, CallGetCertificate _ => true
  | precertOrphan, CallGetPrecertificate _ => true
  | _, _ => false
  end.

Definition isInsertOf (t : orphanType) (e : event) : bool :=
  match t, e with
  | certOrphan, CallAddCertificate _ _ _ _ => true
  | precertOrphan, CallAddPrecertificate _ => true
  | _, _ => false
  end.

Definition foundOf (t : orphanType) (c : stats) : Z :=
  match t with
  | certOrphan => certOrphansFound c
  | precertOrphan => precertOrphansFound c
  | unknownOrphan => 0
  end.

Definition addedOf (t : orphanType) (c : stats) : Z :=
  match t with
  | certOrphan => certOrphansAdded c
  | precertOrphan => precertOrphansAdded c
  | unknownOrphan => 0
  end.

(** *** The shape of a [parse-der] run *)

Inductive derShape (derPath : string) (regID : Z)
  : exit + unit -> list event -> Prop :=
| DerUsage :
    Strings.isEmpty derPath = true \/ regID = 0 ->
    derShape derPath regID (inl UsageExit) []
| DerUnreadable err :
    regID <> 0 -> ReadFile derPath = inl err ->
    derShape derPath regID
             (inl (FailExit ("Failed to read DER file: " ++ err))) []
| DerUnparsed der msg :
    regID <> 0 -> ReadFile derPath = inr der ->
    ParseCertificate der = inl msg ->
    derShape derPath regID
             (inl (FailExit ("Pre-AddCertificate checks failed: "
                               ++ "Failed to parse orphan DER: " ++ msg))) []
| DerChecked der cert diag :
    regID <> 0 -> ReadFile derPath = inr der ->
    ParseCertificate der = inr cert ->
    derShape derPath regID
             (inl (FailExit ("Pre-AddCertificate checks failed: " ++ diag)))
             (lookupOf cert)
| DerOCSPFailed der cert diag :
    regID <> 0 -> ReadFile derPath = inr der ->
    ParseCertificate der = inr cert ->
    derShape derPath regID
             (inl (FailExit ("Generating OCSP: " ++ diag)))
             (lookupOf cert ++ [ocspCall der])
| DerStoreFailed der cert response diag :
    regID <> 0 -> ReadFile derPath = inr der ->
    ParseCertificate der = inr cert ->
    derShape derPath regID
             (inl (FailExit ("Failed to add certificate to database: " ++ diag)))
             (lookupOf cert ++ ocspCall der :: insertOf cert der regID response)
| DerStored der cert response :
    regID <> 0 -> ReadFile derPath = inr der ->
    ParseCertificate der = inr cert ->
    derShape derPath regID (inr tt)
             (lookupOf cert ++ ocspCall der :: insertOf cert der regID response).

(** Each added counter is between zero and its found counter, which is at
    most [n]. *)
Definition bounded (n : Z) (c : stats) : Prop :=
  (0 <= certOrphansAdded c <= certOrphansFound c /\ certOrphansFound c <= n) /\
  (0 <= precertOrphansAdded c <= precertOrphansFound c /\ precertOrphansFound c <= n).

(** ** Properties *)

(** *** The monad and the collaborators *)

Lemma emit_trace (e : event) (st : State World) :
  emit e st = (tt, mkState (world st) (trace st ++ [e])).
Proof. reflexivity. Qed.

Lemma logged_trace (st : State World) lvl msg :
  trace (logged st lvl msg) = (trace st ++ [Log lvl msg])%list.
Proof. reflexivity. Qed.

Lemma lookup_trace sai typ serial st :
  trace (snd (lookup sai typ serial st)) = (trace st ++ lookupCall typ serial)%list.
Proof.
  destruct typ; cbn [lookup lookupCall].
  - cbn. now rewrite app_nil_r.
  - unfold bind, call, ret. destruct (GetCertificate sai serial (world st)); reflexivity.
  - unfold bind, call, ret. destruct (GetPrecertificate sai serial (world st)); reflexivity.
Qed.

Lemma orphanTypeForCert_parsed (c : X509.Certificate) :
  orphanTypeForCert (Some c) = certOrphan \/
  orphanTypeForCert (Some c) = precertOrphan.
Proof.
  unfold orphanTypeForCert.
  destruct (existsb _ _); [right | left]; reflexivity.
Qed.

(** [checkDER] on a DER that does not parse: no lookup. *)
Lemma checkDER_parse_error sai der msg st :
  ParseCertificate der = inl msg ->
  checkDER sai der st =
    (inl (unknownOrphan, newError ("Failed to parse orphan DER: " ++ msg)), st).
Proof. intros H. unfold checkDER. rewrite H. reflexivity. Qed.

(** [checkDER] when the lookup finds a record. *)
Lemma checkDER_exists sai der cert st :
  ParseCertificate der = inr cert ->
  let typ := orphanTypeForCert (Some cert) in
  let looked := lookup sai typ (SerialToString (X509.SerialNumber cert)) st in
  fst looked = None ->
  checkDER sai der st = (inl (typ, errAlreadyExists), snd looked).
Proof.
  intros H typ looked Hl. unfold checkDER. rewrite H. unfold bind.
  fold typ. fold looked. destruct looked as [r st1]. cbn in Hl. subst r.
  reflexivity.
Qed.

(** [checkDER] when the lookup reports not-found. *)
Lemma checkDER_not_found sai der cert e st :
  ParseCertificate der = inr cert ->
  let typ := orphanTypeForCert (Some cert) in
  let looked := lookup sai typ (SerialToString (X509.SerialNumber cert)) st in
  fst looked = Some e ->
  berrorsIsNotFound e = true ->
  checkDER sai der st = (inr (cert, typ), snd looked).
Proof.
  intros H typ looked Hl Hnf. unfold checkDER. rewrite H. unfold bind.
  fold typ. fold looked. destruct looked as [r st1]. cbn in Hl. subst r.
  rewrite Hnf. reflexivity.
Qed.

(** [checkDER] when the lookup fails otherwise. *)
Lemma checkDER_lookup_failed sai der cert e st :
  ParseCertificate der = inr cert ->
  let typ := orphanTypeForCert (Some cert) in
  let looked := lookup sai typ (SerialToString (X509.SerialNumber cert)) st in
  fst looked = Some e ->
  berrorsIsNotFound e = false ->
  checkDER sai der st =
    (inl (typ, newError ("Existing " ++ orphanType_String typ
                         ++ " lookup failed: " ++ Error e)), snd looked).
Proof.
  intros H typ looked Hl Hnf. unfold checkDER. rewrite H. unfold bind.
  fold typ. fold looked. destruct looked as [r st1]. cbn in Hl. subst r.
  rewrite Hnf. reflexivity.
Qed.

(** A certificate comes back from [checkDER] only parsed from the DER, typed
    by its extensions, after exactly the lookup of its type. *)
Lemma checkDER_ok_inv sai der cert typ st st1 :
  checkDER sai der st = (inr (cert, typ), st1) ->
  ParseCertificate der = inr cert /\
  typ = orphanTypeForCert (Some cert) /\
  typ <> unknownOrphan /\
  trace st1 = (trace st ++ lookupCall typ (SerialToString (X509.SerialNumber cert)))%list.
Proof.
  unfold checkDER. destruct (ParseCertificate der) as [msg|c] eqn:Hp.
  - discriminate.
  - unfold bind.
    pose proof (lookup_trace sai (orphanTypeForCert (Some c))
                  (SerialToString (X509.SerialNumber c)) st) as Ht.
    destruct (lookup sai _ _ st) as [r s1]. cbn [snd] in Ht.
    destruct r as [e|]; [destruct (berrorsIsNotFound e)|]; cbv [ret]; intros E;
      inversion E; subst.
    split; [reflexivity|]. split; [reflexivity|]. split; [|exact Ht].
    destruct (existsb _ _); discriminate.
Qed.

(** On failure [checkDER] made at most the lookup of the type it returns. *)
Lemma checkDER_err_inv sai der typ err st st1 :
  checkDER sai der st = (inl (typ, err), st1) ->
  exists calls, trace st1 = (trace st ++ calls)%list /\
    (calls = [] \/ exists ev, calls = [ev] /\ isLookup ev = true).
Proof.
  unfold checkDER. destruct (ParseCertificate der) as [msg|c] eqn:Hp.
  - cbn. intros E. inversion E; subst. exists []. rewrite app_nil_r. auto.
  - unfold bind.
    pose proof (lookup_trace sai (orphanTypeForCert (Some c))
                  (SerialToString (X509.SerialNumber c)) st) as Ht.
    destruct (lookup sai _ _ st) as [r s1]. cbn [snd] in Ht.
    assert (Hc : exists calls, trace s1 = (trace st ++ calls)%list /\
              (calls = [] \/ exists ev, calls = [ev] /\ isLookup ev = true)).
    { eexists. split; [exact Ht|].
      destruct (orphanTypeForCert_parsed c) as [T|T]; rewrite T; cbn;
        right; eexists; split; reflexivity. }
    destruct r as [e|]; [destruct (berrorsIsNotFound e)|]; cbv [ret]; intros E;
      inversion E; subst; exact Hc.
Qed.

Lemma generateOCSP_trace ca der st :
  trace (snd (generateOCSP ca der st)) =
  (trace st ++ [CallGenerateOCSP (mkGenerateOCSPRequest der OCSPStatusGood 0 0)])%list.
Proof.
  unfold generateOCSP, call.
  destruct (GenerateOCSP ca _ (world st)); reflexivity.
Qed.

Lemma store_trace sa typ der regID response issuedDate st :
  trace (snd (store sa typ der regID response issuedDate st)) =
  (trace st ++ insertCall typ der regID response issuedDate)%list.
Proof.
  destruct typ; cbn [store insertCall].
  - cbn. now rewrite app_nil_r.
  - unfold bind, call, ret.
    destruct (AddCertificate sa der regID response issuedDate (world st)); reflexivity.
  - unfold bind, call, ret.
    destruct (AddPrecertificate sa _ (world st)); reflexivity.
Qed.


Lemma Equal_eq (a b : X509.ObjectIdentifier) : X509.Equal a b = true <-> a = b.
Proof.
  revert b. induction a as [|x a IH]; destruct b as [|y b]; cbn;
    try (split; [discriminate|discriminate]); try (split; reflexivity).
  rewrite andb_true_iff, Z.eqb_eq, IH. split.
  - intros [-> ->]. reflexivity.
  - intros E. inversion E. auto.
Qed.

Lemma count_app p (a b : list event) :
  count p (a ++ b) = (count p a + count p b)%nat.
Proof. unfold count. now rewrite filter_app, length_app. Qed.

(** [FindStringSubmatch] returns the nil slice or the whole match and the
    group, so [len(m) <= 1] means no match. *)
Lemma FindStringSubmatch_shape key cls s :
  Regexp.FindStringSubmatch key cls s = [] \/
  exists whole group, Regexp.FindStringSubmatch key cls s = [whole; group].
Proof.
  induction s as [|c s IH]; cbn [Regexp.FindStringSubmatch].
  - destruct (Regexp.matchHere key cls "") as [[w g]|]; eauto.
  - destruct (Regexp.matchHere key cls (String c s)) as [[w g]|]; eauto.
Qed.

(** *** Strings and the regular expressions *)

Lemma append_assoc (a b c : string) : (a ++ b) ++ c = a ++ (b ++ c).
Proof. induction a as [|x a IH]; cbn; [reflexivity|now rewrite IH]. Qed.

Lemma stripPrefix_sound p s r : Strings.stripPrefix p s = Some r -> s = p ++ r.
Proof.
  revert s. induction p as [|a p IH]; intros s H; cbn in H.
  - now inversion H.
  - destruct s as [|b s]; [discriminate|].
    destruct (Ascii.eqb a b) eqn:E; [|discriminate].
    apply Ascii.eqb_eq in E. subst b. cbn. now rewrite <- (IH s H).
Qed.

Lemma stripPrefix_complete p r : Strings.stripPrefix p (p ++ r) = Some r.
Proof.
  induction p as [|a p IH]; cbn; [reflexivity|].
  now rewrite Ascii.eqb_refl.
Qed.

Lemma span_sound cls s g r :
  Strings.span cls s = (g, r) -> s = g ++ r /\ Strings.forallb cls g = true.
Proof.
  revert g r. induction s as [|c s IH]; intros g r H; cbn in H.
  - inversion H. auto.
  - destruct (cls c) eqn:E.
    + destruct (Strings.span cls s) as [g' r'] eqn:S. inversion H; subst.
      destruct (IH g' r eq_refl) as [-> F]. cbn. rewrite E, F. auto.
    + inversion H. auto.
Qed.

Lemma matchHere_sound key cls s whole group :
  Regexp.matchHere key cls s = Some (whole, group) ->
  exists post,
    s = key ++ "[" ++ group ++ "]" ++ post /\
    Strings.forallb cls group = true /\ group <> "".
Proof.
  unfold Regexp.matchHere.
  destruct (Strings.stripPrefix (key ++ "[") s) as [rest|] eqn:P; [|discriminate].
  destruct (Strings.span cls rest) as [g r] eqn:S.
  destruct g as [|c g]; [discriminate|].
  destruct r as [|b r]; [discriminate|].
  destruct (Ascii.eqb b "]") eqn:B.
  - apply Ascii.eqb_eq in B. subst b. intros H. inversion H; subst.
    apply stripPrefix_sound in P. destruct (span_sound _ _ _ _ S) as [-> F].
    exists r. rewrite P, !append_assoc. repeat split; [exact F|discriminate].
  - intros H. exfalso. revert H B.
    destruct b as [[] [] [] [] [] [] [] []]; cbn; discriminate.
Qed.

Lemma FindStringSubmatch_sound key cls s whole group :
  Regexp.FindStringSubmatch key cls s = [whole; group] ->
  exists pre post,
    s = pre ++ key ++ "[" ++ group ++ "]" ++ post /\
    Strings.forallb cls group = true /\ group <> "".
Proof.
  induction s as [|c s IH]; cbn [Regexp.FindStringSubmatch].
  - destruct (Regexp.matchHere key cls "") as [[w g]|] eqn:M; [|discriminate].
    intros H. inversion H; subst.
    destruct (matchHere_sound _ _ _ _ _ M) as [post [E F]].
    exists "", post. auto.
  - destruct (Regexp.matchHere key cls (String c s)) as [[w g]|] eqn:M.
    + intros H. inversion H; subst.
      destruct (matchHere_sound _ _ _ _ _ M) as [post [E F]].
      exists "", post. auto.
    + intros H. destruct (IH H) as [pre [post [E F]]].
      exists (String c pre), post. split; [|exact F]. rewrite E. reflexivity.
Qed.

Lemma FindStringSubmatch_unfold key cls s :
  Regexp.FindStringSubmatch key cls s =
  match Regexp.matchHere key cls s with
  | Some (whole, group) => [whole; group]
  | None =>
      match s with
      | EmptyString => []
      | String _ s' => Regexp.FindStringSubmatch key cls s'
      end
  end.
Proof. destruct s; reflexivity. Qed.

Lemma span_complete cls g rest :
  Strings.forallb cls g = true ->
  match rest with EmptyString => True | String c _ => cls c = false end ->
  Strings.span cls (g ++ rest) = (g, rest).
Proof.
  intros F R. induction g as [|c g IH]; cbn [append Strings.span].
  - destruct rest as [|c r]; [reflexivity|]. cbn. now rewrite R.
  - cbn in F. apply andb_true_iff in F. destruct F as [Fc Fg].
    rewrite Fc, (IH Fg). reflexivity.
Qed.

Lemma matchHere_complete key cls g post :
  Strings.forallb cls g = true -> g <> "" -> cls "]"%char = false ->
  Regexp.matchHere key cls (key ++ "[" ++ g ++ "]" ++ post)
  = Some (key ++ "[" ++ g ++ "]", g).
Proof.
  intros F N B. unfold Regexp.matchHere.
  rewrite <- (append_assoc key "[" (g ++ "]" ++ post)), stripPrefix_complete.
  rewrite (span_complete cls g ("]" ++ post) F B).
  destruct g as [|c g]; [congruence|]. reflexivity.
Qed.

(** A well-formed group anywhere in the line makes the pattern match. *)
Lemma FindStringSubmatch_complete key cls pre g post :
  Strings.forallb cls g = true -> g <> "" -> cls "]"%char = false ->
  exists whole group,
    Regexp.FindStringSubmatch key cls (pre ++ key ++ "[" ++ g ++ "]" ++ post)
    = [whole; group].
Proof.
  intros F N B. induction pre as [|c pre IH].
  - change ("" ++ key ++ "[" ++ g ++ "]" ++ post)
      with (key ++ "[" ++ g ++ "]" ++ post).
    rewrite FindStringSubmatch_unfold.
    rewrite (matchHere_complete key cls g post F N B). eauto.
  - cbn [append Regexp.FindStringSubmatch].
    destruct (Regexp.matchHere key cls _) as [[w g']|]; eauto.
Qed.





(** *** Time arithmetic *)

Lemma wrap_small z : Int64.in_range z -> Int64.wrap z = z.
Proof.
  unfold Int64.in_range, Int64.wrap, Int64.modulus, Int64.min, Int64.max.
  intros H. rewrite Z.mod_small; lia.
Qed.

(** [Add] moves the instant by exactly [d] nanoseconds and keeps the
    nanosecond field within the second. *)
Lemma Add_nanos t d :
  Time.wellFormed t ->
  Time.nanos (Time.Add t d) = Time.nanos t + d /\
  Time.wellFormed (Time.Add t d).
Proof.
  unfold Time.wellFormed, Time.nanos, Time.Add. intros W.
  pose proof (Z.quot_rem' d 1000000000) as Q.
  assert (B : - 1000000000 < Z.rem d 1000000000 < 1000000000).
  { destruct (Z.le_gt_cases 0 d) as [P|N].
    - pose proof (Z.rem_bound_pos_pos d 1000000000 ltac:(lia) P). lia.
    - pose proof (Z.rem_bound_pos_neg d 1000000000 ltac:(lia) ltac:(lia)). lia. }
  destruct (1000000000 <=? Time.nsec t + Z.rem d 1000000000) eqn:E1;
    [apply Z.leb_le in E1 | apply Z.leb_gt in E1;
     destruct (Time.nsec t + Z.rem d 1000000000 <? 0) eqn:E2;
     [apply Z.ltb_lt in E2 | apply Z.ltb_ge in E2]];
    cbn [Time.sec Time.nsec]; split; lia.
Qed.

Lemma UnixNano_Add t d :
  Time.wellFormed t ->
  Int64.in_range (Time.nanos t + d) ->
  Time.UnixNano (Time.Add t d) = Time.nanos t + d.
Proof.
  intros W R. destruct (Add_nanos t d W) as [N _].
  unfold Time.UnixNano. fold (Time.nanos (Time.Add t d)).
  rewrite N. now apply wrap_small.
Qed.

(** *** The paths of [storeParsedLogLine] *)

Lemma scanner_guards line :
  scannerMatches line = true ->
  negb (Strings.Contains line (orphaningLabel certOrphan)) &&
  negb (Strings.Contains line (orphaningLabel precertOrphan)) = false /\
  negb (Strings.Contains line derMarker) = false.
Proof.
  unfold scannerMatches, hasOrphanLabel, hasDerMarker.
  destruct (Strings.Contains line (orphaningLabel certOrphan)),
           (Strings.Contains line (orphaningLabel precertOrphan)),
           (Strings.Contains line derMarker); cbn; intros; auto; discriminate.
Qed.

Lemma storeParsedLogLine_unmatched sa ca line st :
  scannerMatches line = false ->
  storeParsedLogLine sa ca line st = ((false, false, unknownOrphan), st).
Proof.
  unfold scannerMatches, hasOrphanLabel, hasDerMarker, storeParsedLogLine.
  destruct (Strings.Contains line (orphaningLabel certOrphan)),
           (Strings.Contains line (orphaningLabel precertOrphan)),
           (Strings.Contains line derMarker); cbn; intros; auto; discriminate.
Qed.

Ltac enter_line H :=
  let G1 := fresh in let G2 := fresh in
  destruct (scanner_guards _ H) as [G1 G2];
  unfold storeParsedLogLine; rewrite G1, G2; clear G1 G2.

Lemma path_no_der sa ca line st :
  scannerMatches line = true ->
  derOrphan line = [] ->
  storeParsedLogLine sa ca line st =
    ((true, false, unknownOrphan),
     logged st AuditErr ("Didn't match regex for cert: " ++ line)).
Proof. intros H D. enter_line H. rewrite D. reflexivity. Qed.

Lemma path_bad_hex sa ca line st whole group msg :
  scannerMatches line = true ->
  derOrphan line = [whole; group] ->
  Hex.DecodeString group = inl msg ->
  storeParsedLogLine sa ca line st =
    ((true, false, unknownOrphan),
     logged st AuditErr ("Couldn't decode hex: " ++ msg ++ ", [" ++ line ++ "]")).
Proof. intros H D X. enter_line H. rewrite D, X. reflexivity. Qed.

Lemma path_check_failed sa ca line st whole group der typ err st1 :
  scannerMatches line = true ->
  derOrphan line = [whole; group] ->
  Hex.DecodeString group = inr der ->
  checkDER sa der st = (inl (typ, err), st1) ->
  storeParsedLogLine sa ca line st =
    ((true, false, typ),
     logged st1 (if isErrAlreadyExists err then Info else Err)
            (Error err ++ ", [" ++ line ++ "]")).
Proof.
  intros H D X C. enter_line H. rewrite D, X. unfold bind. rewrite C.
  destruct (isErrAlreadyExists err); reflexivity.
Qed.

Lemma path_no_regID sa ca line st whole group der cert typ st1 :
  scannerMatches line = true ->
  derOrphan line = [whole; group] ->
  Hex.DecodeString group = inr der ->
  checkDER sa der st = (inr (cert, typ), st1) ->
  regOrphan line = [] ->
  storeParsedLogLine sa ca line st =
    ((true, false, typ),
     logged st1 AuditErr ("regID variable is empty, [" ++ line ++ "]")).
Proof.
  intros H D X C R. enter_line H. rewrite D, X. unfold bind. rewrite C, R.
  reflexivity.
Qed.

Lemma path_bad_regID sa ca line st whole group der cert typ st1 rw rg msg :
  scannerMatches line = true ->
  derOrphan line = [whole; group] ->
  Hex.DecodeString group = inr der ->
  checkDER sa der st = (inr (cert, typ), st1) ->
  regOrphan line = [rw; rg] ->
  Strconv.ParseInt rg = inl msg ->
  storeParsedLogLine sa ca line st =
    ((true, false, typ),
     logged st1 AuditErr ("Couldn't parse regID: " ++ msg ++ ", [" ++ line ++ "]")).
Proof.
  intros H D X C R P. enter_line H. rewrite D, X. unfold bind. rewrite C, R, P.
  reflexivity.
Qed.

Lemma path_ocsp_failed sa ca line st whole group der cert typ st1 rw rg regID e st2 :
  scannerMatches line = true ->
  derOrphan line = [whole; group] ->
  Hex.DecodeString group = inr der ->
  checkDER sa der st = (inr (cert, typ), st1) ->
  regOrphan line = [rw; rg] ->
  Strconv.ParseInt rg = inr regID ->
  generateOCSP ca der st1 = (inl e, st2) ->
  storeParsedLogLine sa ca line st =
    ((true, false, typ),
     logged st2 AuditErr
       ("Couldn't generate OCSP: " ++ ErrorText e ++ ", [" ++ line ++ "]")).
Proof.
  intros H D X C R P O. enter_line H. rewrite D, X. unfold bind.
  rewrite C, R, P, O. reflexivity.
Qed.

Lemma path_store sa ca line st whole group der cert typ st1 rw rg regID
      response st2 :
  scannerMatches line = true ->
  derOrphan line = [whole; group] ->
  Hex.DecodeString group = inr der ->
  checkDER sa der st = (inr (cert, typ), st1) ->
  regOrphan line = [rw; rg] ->
  Strconv.ParseInt rg = inr regID ->
  generateOCSP ca der st1 = (inr response, st2) ->
  let stored :=
    store sa typ der regID response
          (Time.Add (X509.NotBefore cert) backdateDuration) st2 in
  storeParsedLogLine sa ca line st =
    match fst stored with
    | Some e =>
        ((true, false, typ),
         logged (snd stored) AuditErr
           ("Failed to store certificate: " ++ Error e ++ ", [" ++ line ++ "]"))
    | None => ((true, true, typ), snd stored)
    end.
Proof.
  intros H D X C R P O stored. enter_line H. rewrite D, X. unfold bind.
  rewrite C, R, P, O. fold stored. destruct stored as [[e|] st3]; reflexivity.
Qed.




(** *** Classification, the scanner and the existence check *)

(** C7: for a parsed certificate the classification is [precertOrphan] when
    some extension id equals the CT poison id 1.3.6.1.4.1.11129.2.4.3 and
    [certOrphan] otherwise; [unknownOrphan] is returned exactly for the nil
    certificate. *)
Theorem orphanTypeForCert_classification (cert : option X509.Certificate) :
  match cert with
  | Some c =>
      let poisoned :=
        exists ext, In ext (X509.Extensions c) /\
                    X509.Id ext = [1; 3; 6; 1; 4; 1; 11129; 2; 4; 3] in
      (poisoned /\ orphanTypeForCert cert = precertOrphan) \/
      (~ poisoned /\ orphanTypeForCert cert = certOrphan)
  | None => orphanTypeForCert cert = unknownOrphan
  end /\
  (orphanTypeForCert cert = unknownOrphan <-> cert = None).
Proof.
  split.
  - destruct cert as [c|]; [|reflexivity].
    cbv zeta. unfold orphanTypeForCert.
    destruct (existsb _ (X509.Extensions c)) eqn:E.
    + left. split; [|reflexivity].
      apply existsb_exists in E. destruct E as [ext [Hin Heq]].
      exists ext. split; [exact Hin|]. now apply Equal_eq.
    + right. split; [|reflexivity].
      intros [ext [Hin Heq]].
      assert (existsb (fun ext => X509.Equal (X509.Id ext) poisonExt)
                      (X509.Extensions c) = true) as E'.
      { apply existsb_exists. exists ext. split; [exact Hin|].
        apply Equal_eq. exact Heq. }
      congruence.
  - split.
    + destruct cert as [c|]; [|reflexivity].
      destruct (orphanTypeForCert_parsed c) as [T|T]; rewrite T; discriminate.
    + intros ->. reflexivity.
Qed.



(** C4: when the existence check of a matched candidate finds a record, the
    line is reported found and not added, the message is logged at
    informational level, and after the lookup no OCSP request and no insert
    is made. *)
Theorem existing_record_short_circuits sa ca line st whole group der cert :
  scannerMatches line = true ->
  derOrphan line = [whole; group] ->
  Hex.DecodeString group = inr der ->
  ParseCertificate der = inr cert ->
  let typ := orphanTypeForCert (Some cert) in
  let serial := SerialToString (X509.SerialNumber cert) in
  fst (lookup sa typ serial st) = None ->
  let r := storeParsedLogLine sa ca line st in
  fst r = (true, false, typ) /\
  trace (snd r) =
    (trace st ++ lookupCall typ serial
       ++ [Log Info ("Certificate already exists in DB, [" ++ line ++ "]")])%list /\
  count isLookup (lookupCall typ serial) = 1%nat /\
  count isOCSP (trace (snd r)) = count isOCSP (trace st) /\
  count isInsert (trace (snd r)) = count isInsert (trace st).
Proof.
  intros M D X P typ serial L r.
  pose proof (checkDER_exists sa der cert st P L) as C.
  pose proof (path_check_failed sa ca line st whole group der _ _ _ M D X C) as R.
  fold typ serial in R. subst r. rewrite R. cbn [fst snd isErrAlreadyExists Error].
  rewrite logged_trace, lookup_trace. fold typ serial.
  assert (T : lookupCall typ serial = [CallGetCertificate serial] \/
              lookupCall typ serial = [CallGetPrecertificate serial]).
  { destruct (orphanTypeForCert_parsed cert) as [E|E]; unfold typ; rewrite E;
      cbn; auto. }
  rewrite <- app_assoc. repeat split.
  - destruct T as [-> | ->]; reflexivity.
  - rewrite count_app. destruct T as [-> | ->]; cbn; lia.
  - rewrite count_app. destruct T as [-> | ->]; cbn; lia.
Qed.

(** C2, amended: a labelled line with the marker but without a registration
    id is reported found and not added, with one diagnostic, no OCSP request
    and no insert, and at most one remote call, the existence lookup, which
    comes before the registration id is looked for.  The diagnostic is at
    audit level and nothing is called when no DER is extracted or decoded; it
    is at audit level, after the lookup, when the lookup reports not-found. *)
Theorem missing_regID_abandons sa ca line st :
  scannerMatches line = true ->
  regOrphan line = [] ->
  let r := storeParsedLogLine sa ca line st in
  (fst (fst (fst r)) = true /\ snd (fst (fst r)) = false) /\
  (exists calls lvl msg,
      trace (snd r) = (trace st ++ calls ++ [Log lvl msg])%list /\
      (calls = [] \/ exists ev, calls = [ev] /\ isLookup ev = true)) /\
  (derOrphan line = [] ->
   r = ((true, false, unknownOrphan),
        logged st AuditErr ("Didn't match regex for cert: " ++ line))) /\
  (forall whole group msg,
      derOrphan line = [whole; group] ->
      Hex.DecodeString group = inl msg ->
      r = ((true, false, unknownOrphan),
           logged st AuditErr
             ("Couldn't decode hex: " ++ msg ++ ", [" ++ line ++ "]"))) /\
  (forall whole group der cert e,
      derOrphan line = [whole; group] ->
      Hex.DecodeString group = inr der ->
      ParseCertificate der = inr cert ->
      let typ := orphanTypeForCert (Some cert) in
      let looked := lookup sa typ (SerialToString (X509.SerialNumber cert)) st in
      fst looked = Some e ->
      berrorsIsNotFound e = true ->
      r = ((true, false, typ),
           logged (snd looked) AuditErr ("regID variable is empty, [" ++ line ++ "]")) /\
      count isLookup (trace (snd r)) = S (count isLookup (trace st))).
Proof.
  intros M R r. subst r.
  assert (Cases :
    (exists lvl msg, storeParsedLogLine sa ca line st =
                     ((true, false, unknownOrphan), logged st lvl msg)) \/
    (exists typ lvl msg st1 calls,
        storeParsedLogLine sa ca line st = ((true, false, typ), logged st1 lvl msg) /\
        trace st1 = (trace st ++ calls)%list /\
        (calls = [] \/ exists ev, calls = [ev] /\ isLookup ev = true))).
  { destruct (FindStringSubmatch_shape "cert=" Regexp.lowerHex line)
      as [D | [whole [group D]]]; fold (derOrphan line) in D.
    - left. rewrite (path_no_der sa ca line st M D). eauto.
    - destruct (Hex.DecodeString group) as [msg|der] eqn:X.
      + left. rewrite (path_bad_hex sa ca line st _ _ _ M D X). eauto.
      + right. destruct (checkDER sa der st) as [[[typ err] | [cert typ]] st1] eqn:C.
        * rewrite (path_check_failed sa ca line st _ _ _ _ _ _ M D X C).
          destruct (checkDER_err_inv _ _ _ _ _ _ C) as [calls [T K]].
          exists typ. do 2 eexists. exists st1, calls. eauto.
        * rewrite (path_no_regID sa ca line st _ _ _ _ _ _ M D X C R).
          destruct (checkDER_ok_inv _ _ _ _ _ _ C) as [_ [Ty [_ T]]].
          exists typ. do 2 eexists. exists st1. eexists. split; [reflexivity|].
          split; [exact T|]. right.
          destruct (orphanTypeForCert_parsed cert) as [E|E]; rewrite Ty, E;
            cbn; eexists; split; reflexivity. }
  split; [|split; [|split; [|split]]].
  - destruct Cases as [[lvl [msg E]] | [typ [lvl [msg [st1 [calls [E _]]]]]]];
      rewrite E; split; reflexivity.
  - destruct Cases as [[lvl [msg E]] | [typ [lvl [msg [st1 [calls [E [T K]]]]]]]];
      rewrite E; cbn [snd]; rewrite logged_trace.
    + exists [], lvl, msg. split; [reflexivity|left; reflexivity].
    + exists calls, lvl, msg. rewrite T, <- app_assoc. split; [reflexivity|exact K].
  - intros D. apply (path_no_der sa ca line st M D).
  - intros whole group msg D X. apply (path_bad_hex sa ca line st _ _ _ M D X).
  - intros whole group der cert e D X P typ looked L N.
    pose proof (checkDER_not_found sa der cert e st P L N) as C.
    pose proof (path_no_regID sa ca line st _ _ _ _ _ _ M D X C R) as E.
    fold typ looked in E. split; [exact E|].
    rewrite E. cbn [snd]. rewrite logged_trace. unfold looked.
    rewrite lookup_trace, !count_app.
    destruct (orphanTypeForCert_parsed cert) as [T|T]; unfold typ; rewrite T;
      cbn; lia.
Qed.


(** *** The insert, in both modes *)

Lemma log_mode_insert sa ca line st whole group der cert typ st1 rw rg regID
      response st2 :
  scannerMatches line = true ->
  derOrphan line = [whole; group] ->
  Hex.DecodeString group = inr der ->
  checkDER sa der st = (inr (cert, typ), st1) ->
  regOrphan line = [rw; rg] ->
  Strconv.ParseInt rg = inr regID ->
  generateOCSP ca der st1 = (inr response, st2) ->
  exists tail,
    trace (snd (storeParsedLogLine sa ca line st)) =
      (trace st2
         ++ insertCall typ der regID response
              (Time.Add (X509.NotBefore cert) backdateDuration)
         ++ tail)%list /\
    (tail = [] \/ exists msg, tail = [Log AuditErr msg]).
Proof.
  intros M D X C R P O.
  rewrite (path_store sa ca line st _ _ _ _ _ _ _ _ _ _ _ M D X C R P O).
  pose proof (store_trace sa typ der regID response
                (Time.Add (X509.NotBefore cert) backdateDuration) st2) as T.
  destruct (store sa typ der regID response _ st2) as [[e|] st3]; cbn [fst snd] in *.
  - eexists. rewrite logged_trace, T, <- app_assoc. split; [reflexivity|].
    right. eexists. reflexivity.
  - exists []. rewrite T, app_nil_r. auto.
Qed.

Lemma isEmpty_unmatched line : Strings.isEmpty line = true -> scannerMatches line = false.
Proof. destruct line; [reflexivity|discriminate]. Qed.

Lemma processLines_step sa ca line rest c st :
  scannerMatches line = true ->
  processLines sa ca (line :: rest) c st =
    (r <- storeParsedLogLine sa ca line ;;
     c' <- tally c r ;;
     processLines sa ca rest c') st.
Proof.
  intros M. cbn [processLines].
  destruct (Strings.isEmpty line) eqn:E; [|reflexivity].
  apply isEmpty_unmatched in E. congruence.
Qed.

Lemma parseDer_check_failed sa ca derPath regID der typ err st st1 :
  Strings.isEmpty derPath = false ->
  regID <> 0 ->
  ReadFile derPath = inr der ->
  checkDER sa der st = (inl (typ, err), st1) ->
  parseDer sa ca derPath regID st =
    (inl (FailExit ("Pre-AddCertificate checks failed: " ++ Error err)), st1).
Proof.
  intros E Z F C. unfold parseDer. rewrite E.
  apply Z.eqb_neq in Z. rewrite Z, F. cbn [orb FailOnError]. unfold bind.
  rewrite C. reflexivity.
Qed.

Lemma parseDer_ocsp_failed sa ca derPath regID der cert typ e st st1 st2 :
  Strings.isEmpty derPath = false ->
  regID <> 0 ->
  ReadFile derPath = inr der ->
  checkDER sa der st = (inr (cert, typ), st1) ->
  generateOCSP ca der st1 = (inl e, st2) ->
  parseDer sa ca derPath regID st =
    (inl (FailExit ("Generating OCSP: " ++ ErrorText e)), st2).
Proof.
  intros E Z F C O. unfold parseDer. rewrite E.
  apply Z.eqb_neq in Z. rewrite Z, F. cbn [orb FailOnError]. unfold bind.
  rewrite C, O. reflexivity.
Qed.

Lemma parseDer_store sa ca derPath regID der cert typ response st st1 st2 :
  Strings.isEmpty derPath = false ->
  regID <> 0 ->
  ReadFile derPath = inr der ->
  checkDER sa der st = (inr (cert, typ), st1) ->
  generateOCSP ca der st1 = (inr response, st2) ->
  let stored :=
    store sa typ der regID response
          (Time.Add (X509.NotBefore cert) backdateDuration) st2 in
  parseDer sa ca derPath regID st =
    (FailOnError (errOf (fst stored)) "Failed to add certificate to database",
     snd stored).
Proof.
  intros E Z F C O stored. unfold parseDer. rewrite E.
  apply Z.eqb_neq in Z. rewrite Z, F. cbn [orb FailOnError]. unfold bind.
  rewrite C, O. rewrite Z.mul_1_l. fold stored.
  destruct stored as [err st3]. reflexivity.
Qed.

(** C3, amended: an insert that fails, with a uniqueness violation or
    any other error, is logged at audit level as a failure to store, the line
    is reported found and not added, and the batch goes on with the next
    line. *)
Theorem insert_failure_is_audited sa ca line rest c st whole group der cert typ
        st1 rw rg regID response st2 e :
  scannerMatches line = true ->
  derOrphan line = [whole; group] ->
  Hex.DecodeString group = inr der ->
  checkDER sa der st = (inr (cert, typ), st1) ->
  regOrphan line = [rw; rg] ->
  Strconv.ParseInt rg = inr regID ->
  generateOCSP ca der st1 = (inr response, st2) ->
  let stored :=
    store sa typ der regID response
          (Time.Add (X509.NotBefore cert) backdateDuration) st2 in
  fst stored = Some e ->
  let st' :=
    logged (snd stored) AuditErr
           ("Failed to store certificate: " ++ Error e ++ ", [" ++ line ++ "]") in
  storeParsedLogLine sa ca line st = ((true, false, typ), st') /\
  processLines sa ca (line :: rest) c st =
    (c' <- tally c (true, false, typ) ;; processLines sa ca rest c') st'.
Proof.
  intros M D X C R P O stored S st'.
  pose proof (path_store sa ca line st _ _ _ _ _ _ _ _ _ _ _ M D X C R P O) as E.
  cbv zeta in E. fold stored in E. rewrite S in E. fold st' in E.
  split; [exact E|].
  rewrite (processLines_step sa ca line rest c st M).
  unfold bind at 1. rewrite E. reflexivity.
Qed.


Lemma poisoned_is_precert (cert : X509.Certificate) :
  (exists ext, In ext (X509.Extensions cert) /\ X509.Id ext = poisonExt) ->
  orphanTypeForCert (Some cert) = precertOrphan.
Proof.
  intros [ext [Hin Heq]]. unfold orphanTypeForCert.
  assert (existsb (fun ext => X509.Equal (X509.Id ext) poisonExt)
                  (X509.Extensions cert) = true) as E.
  { apply existsb_exists. exists ext. split; [exact Hin|]. now apply Equal_eq. }
  rewrite E. reflexivity.
Qed.

(** C5, amended: for a precertificate DER with a well-formed registration
    id, when the precertificate lookup reports not-found and the OCSP request
    succeeds, the line makes exactly one insert, the precertificate insert,
    whose issued field is [UnixNano] of NotBefore plus the backdate, taken at
    the insert; within [int64] that is NotBefore plus the backdate in
    nanoseconds since the epoch. *)
Theorem precertificate_inserted_once sa ca line st whole group der cert rw rg
        regID e w1 response w2 :
  scannerMatches line = true ->
  derOrphan line = [whole; group] ->
  Hex.DecodeString group = inr der ->
  ParseCertificate der = inr cert ->
  (exists ext, In ext (X509.Extensions cert) /\ X509.Id ext = poisonExt) ->
  regOrphan line = [rw; rg] ->
  Strconv.ParseInt rg = inr regID ->
  let serial := SerialToString (X509.SerialNumber cert) in
  GetPrecertificate sa serial (world st) = (Some e, w1) ->
  IsNotFound e = true ->
  let ocspReq := mkGenerateOCSPRequest der OCSPStatusGood 0 0 in
  GenerateOCSP ca ocspReq w1 = (inr response, w2) ->
  let issuedDate := Time.Add (X509.NotBefore cert) backdateDuration in
  let req := mkAddCertificateRequest der regID response (Time.UnixNano issuedDate) in
  let r := storeParsedLogLine sa ca line st in
  (fst (fst (fst r)) = true /\ snd (fst r) = precertOrphan) /\
  (exists tail,
      trace (snd r) =
        (trace st
           ++ [CallGetPrecertificate serial; CallGenerateOCSP ocspReq;
               CallAddPrecertificate req]
           ++ tail)%list /\
      (tail = [] \/ exists msg, tail = [Log AuditErr msg])) /\
  count isInsert (trace (snd r)) = S (count isInsert (trace st)) /\
  count isPrecertInsert (trace (snd r)) = S (count isPrecertInsert (trace st)) /\
  (Time.wellFormed (X509.NotBefore cert) ->
   Int64.in_range (Time.nanos (X509.NotBefore cert) + backdateDuration) ->
   Issued req = Time.nanos (X509.NotBefore cert) + backdateDuration).
Proof.
  intros M D X P Poi R PI serial G NF ocspReq O issuedDate req r.
  pose proof (poisoned_is_precert cert Poi) as Ty.
  set (st1 := mkState w1 (trace st ++ [CallGetPrecertificate serial])).
  set (st2 := mkState w2 (trace st1 ++ [CallGenerateOCSP ocspReq])).
  assert (L : lookup sa (orphanTypeForCert (Some cert)) serial st
              = (Some (remoteError e), st1)).
  { rewrite Ty. cbn [lookup]. unfold bind, call, ret. rewrite G. reflexivity. }
  assert (C : checkDER sa der st = (inr (cert, precertOrphan), st1)).
  { pose proof (checkDER_not_found sa der cert (remoteError e) st P) as C.
    cbv zeta in C. fold serial in C. rewrite L in C. rewrite <- Ty.
    apply C; [reflexivity|exact NF]. }
  assert (OC : generateOCSP ca der st1 = (inr response, st2)).
  { unfold generateOCSP, call. fold ocspReq. cbn [world st1]. rewrite O.
    reflexivity. }
  pose proof (path_store sa ca line st _ _ _ _ _ _ _ _ _ _ _ M D X C R PI OC) as E.
  destruct (log_mode_insert sa ca line st _ _ _ _ _ _ _ _ _ _ _ M D X C R PI OC)
    as [tail [T K]].
  cbv zeta in E. fold r in E, T. fold issuedDate in E, T.
  cbn [insertCall] in T. fold req in T.
  assert (T' : trace (snd r) =
               (trace st ++ [CallGetPrecertificate serial; CallGenerateOCSP ocspReq;
                             CallAddPrecertificate req] ++ tail)%list).
  { rewrite T. unfold st2, st1. cbn [trace]. rewrite <- !app_assoc. reflexivity. }
  split; [|split; [|split; [|split]]].
  - rewrite E. destruct (fst (store sa precertOrphan der regID response issuedDate st2));
      split; reflexivity.
  - exists tail. split; [exact T'|exact K].
  - rewrite T', !count_app. destruct K as [-> | [msg ->]]; cbn; lia.
  - rewrite T', !count_app. destruct K as [-> | [msg ->]]; cbn; lia.
  - intros W In. unfold req. cbn [Issued]. unfold issuedDate.
    now apply UnixNano_Add.
Qed.

(** C1, amended: with NotBefore = 2020-01-01T00:00:00Z and a backdate of
    one hour the issued time is 2020-01-01T01:00:00Z (the backdate is added):
    that time is passed to the certificate insert and 1577840400000000000 to
    the precertificate insert, from a log line and from a DER file alike. *)
Theorem issued_time_2020 sa ca (cert : X509.Certificate) :
  X509.NotBefore cert = Time.Date 2020 1 1 0 0 0 0 ->
  backdateDuration = Time.Hour ->
  let issuedInsert typ der regID response :=
    match typ with
    | certOrphan =>
        [CallAddCertificate der regID response (Time.Date 2020 1 1 1 0 0 0)]
    | precertOrphan =>
        [CallAddPrecertificate
           (mkAddCertificateRequest der regID response 1577840400000000000)]
    | unknownOrphan => []
    end in
  (forall line st whole group der typ st1 rw rg regID response st2,
      scannerMatches line = true ->
      derOrphan line = [whole; group] ->
      Hex.DecodeString group = inr der ->
      checkDER sa der st = (inr (cert, typ), st1) ->
      regOrphan line = [rw; rg] ->
      Strconv.ParseInt rg = inr regID ->
      generateOCSP ca der st1 = (inr response, st2) ->
      typ <> unknownOrphan /\
      exists tail,
        trace (snd (storeParsedLogLine sa ca line st)) =
          (trace st2 ++ issuedInsert typ der regID response ++ tail)%list /\
        (tail = [] \/ exists msg, tail = [Log AuditErr msg])) /\
  (forall derPath regID st der typ st1 response st2,
      Strings.isEmpty derPath = false ->
      regID <> 0 ->
      ReadFile derPath = inr der ->
      checkDER sa der st = (inr (cert, typ), st1) ->
      generateOCSP ca der st1 = (inr response, st2) ->
      typ <> unknownOrphan /\
      trace (snd (parseDer sa ca derPath regID st)) =
        (trace st2 ++ issuedInsert typ der regID response)%list).
Proof.
  intros NB BD issuedInsert.
  assert (I : forall typ der regID response,
             insertCall typ der regID response
               (Time.Add (X509.NotBefore cert) backdateDuration)
             = issuedInsert typ der regID response).
  { intros. rewrite NB, BD. destruct typ; reflexivity. }
  split.
  - intros line st whole group der typ st1 rw rg regID response st2 M D X C R P O.
    destruct (checkDER_ok_inv _ _ _ _ _ _ C) as [_ [_ [U _]]].
    split; [exact U|].
    destruct (log_mode_insert sa ca line st _ _ _ _ _ _ _ _ _ _ _ M D X C R P O)
      as [tail [T K]].
    exists tail. rewrite I in T. split; [exact T|exact K].
  - intros derPath regID st der typ st1 response st2 E Z F C O.
    destruct (checkDER_ok_inv _ _ _ _ _ _ C) as [_ [_ [U _]]].
    split; [exact U|].
    rewrite (parseDer_store sa ca derPath regID der cert typ response st st1 st2
               E Z F C O).
    cbn [snd]. rewrite store_trace, I. reflexivity.
Qed.

(** C8, amended: when the existence check finds a record, a log line is
    reported found and not added with an informational message and the batch
    goes on with the next line, while the [parse-der] command aborts with the
    diagnostic of the failed pre-insert checks; in both modes no OCSP request
    and no insert follows the lookup. *)
Theorem already_exists_by_mode sa ca der cert st :
  ParseCertificate der = inr cert ->
  let typ := orphanTypeForCert (Some cert) in
  let looked := lookup sa typ (SerialToString (X509.SerialNumber cert)) st in
  fst looked = None ->
  (forall line whole group rest c,
      scannerMatches line = true ->
      derOrphan line = [whole; group] ->
      Hex.DecodeString group = inr der ->
      let st' :=
        logged (snd looked) Info
               ("Certificate already exists in DB, [" ++ line ++ "]") in
      storeParsedLogLine sa ca line st = ((true, false, typ), st') /\
      processLines sa ca (line :: rest) c st =
        (c' <- tally c (true, false, typ) ;; processLines sa ca rest c') st') /\
  (forall derPath regID,
      Strings.isEmpty derPath = false ->
      regID <> 0 ->
      ReadFile derPath = inr der ->
      parseDer sa ca derPath regID st =
        (inl (FailExit
                "Pre-AddCertificate checks failed: Certificate already exists in DB"),
         snd looked)) /\
  count isOCSP (trace (snd looked)) = count isOCSP (trace st) /\
  count isInsert (trace (snd looked)) = count isInsert (trace st).
Proof.
  intros P typ looked L.
  pose proof (checkDER_exists sa der cert st P L) as C. fold typ looked in C.
  split; [|split; [|split]].
  - intros line whole group rest c M D X st'.
    pose proof (path_check_failed sa ca line st whole group der _ _ _ M D X C) as E.
    cbn [isErrAlreadyExists Error] in E. fold st' in E.
    split; [exact E|].
    rewrite (processLines_step sa ca line rest c st M).
    unfold bind at 1. rewrite E. reflexivity.
  - intros derPath regID E Z F.
    rewrite (parseDer_check_failed sa ca derPath regID der _ _ st _ E Z F C).
    reflexivity.
  - unfold looked. rewrite lookup_trace, count_app.
    destruct (orphanTypeForCert_parsed cert) as [T|T]; unfold typ; rewrite T;
      cbn; lia.
  - unfold looked. rewrite lookup_trace, count_app.
    destruct (orphanTypeForCert_parsed cert) as [T|T]; unfold typ; rewrite T;
      cbn; lia.
Qed.


(** *** The DER pattern *)



(** *** The counters of the batch *)

Lemma incr_small n : 0 <= n < Int64.max -> incr n = n + 1.
Proof.
  intros H. unfold incr. apply wrap_small.
  unfold Int64.in_range, Int64.min, Int64.max in *. lia.
Qed.

Lemma tally_bounded n c r st :
  bounded n c -> 0 <= n < Int64.max ->
  bounded (n + 1) (fst (tally c r st)).
Proof.
  intros [[A1 A2] [B1 B2]] N. destruct r as [[found added] typ].
  unfold bounded, tally, bump.
  destruct typ; [cbn; lia| |];
    destruct found, added; cbn [fst ret certOrphansFound certOrphansAdded
                                precertOrphansFound precertOrphansAdded];
    rewrite ?incr_small by lia; lia.
Qed.

Lemma processLines_bounded sa ca lines :
  forall c st n,
    0 <= n -> bounded n c ->
    n + Z.of_nat (nonEmptyLines lines) <= Int64.max ->
    bounded (n + Z.of_nat (nonEmptyLines lines))
            (fst (processLines sa ca lines c st)).
Proof.
  induction lines as [|line rest IH]; intros c st n N B H.
  - cbn. now rewrite Z.add_0_r.
  - cbn [processLines]. unfold nonEmptyLines in *. cbn [filter] in *.
    destruct (Strings.isEmpty line); cbn [negb] in *.
    + now apply IH.
    + cbn [List.length] in *. rewrite Nat2Z.inj_succ in *.
      unfold bind. destruct (storeParsedLogLine sa ca line st) as [r st1].
      pose proof (tally_bounded n c r st1 B ltac:(lia)) as B'.
      destruct (tally c r st1) as [c' st2]. cbn [fst] in B'.
      replace (n + Z.succ (Z.of_nat (List.length
                 (filter (fun l => negb (Strings.isEmpty l)) rest))))
        with ((n + 1) + Z.of_nat (List.length
                 (filter (fun l => negb (Strings.isEmpty l)) rest))) by lia.
      apply IH; [lia|exact B'|lia].
Qed.

Lemma SplitLines_nonEmpty s :
  (nonEmptyLines (Strings.SplitLines s) <= String.length s)%nat.
Proof.
  unfold nonEmptyLines. induction s as [|c s IH]; cbn [Strings.SplitLines].
  - cbn. lia.
  - destruct (Ascii.eqb c (ascii_of_nat 10)).
    + cbn [filter Strings.isEmpty negb String.length]. lia.
    + destruct (Strings.SplitLines s) as [|h r].
      * cbn. lia.
      * cbn [filter Strings.isEmpty negb String.length List.length] in *.
        destruct (negb (Strings.isEmpty h)); cbn [List.length] in IH; lia.
Qed.

Lemma length_string_of_list_byte (l : list byte) :
  String.length (string_of_list_byte l) = List.length l.
Proof.
  induction l as [|b l IH]; [reflexivity|].
  change (S (String.length (string_of_list_byte l)) = S (List.length l)).
  now rewrite IH.
Qed.

(** C9: a matched line whose DER is not extracted, not decoded or not
    parsed has the unknown type and changes no counter; a found counter moves
    only for a line reported found with the type of that counter, an added
    counter only together with its found counter; at the end of a batch each
    added counter is at most its found counter. *)
Theorem counters_follow_determined_type sa ca :
  (forall line st,
      scannerMatches line = true ->
      (derOrphan line = [] \/
       exists whole group,
         derOrphan line = [whole; group] /\
         ((exists msg, Hex.DecodeString group = inl msg) \/
          (exists der msg, Hex.DecodeString group = inr der /\
                           ParseCertificate der = inl msg))) ->
      fst (storeParsedLogLine sa ca line st) = (true, false, unknownOrphan)) /\
  (forall c found added st,
      fst (tally c (found, added, unknownOrphan) st) = c) /\
  (forall c found added typ st,
      let c' := fst (tally c (found, added, typ) st) in
      (certOrphansFound c' = certOrphansFound c \/
       (found = true /\ typ = certOrphan /\
        certOrphansFound c' = incr (certOrphansFound c))) /\
      (certOrphansAdded c' = certOrphansAdded c \/
       (added = true /\ found = true /\ typ = certOrphan /\
        certOrphansFound c' = incr (certOrphansFound c) /\
        certOrphansAdded c' = incr (certOrphansAdded c))) /\
      (precertOrphansFound c' = precertOrphansFound c \/
       (found = true /\ typ = precertOrphan /\
        precertOrphansFound c' = incr (precertOrphansFound c))) /\
      (precertOrphansAdded c' = precertOrphansAdded c \/
       (added = true /\ found = true /\ typ = precertOrphan /\
        precertOrphansFound c' = incr (precertOrphansFound c) /\
        precertOrphansAdded c' = incr (precertOrphansAdded c)))) /\
  (forall logPath logData st,
      Strings.isEmpty logPath = false ->
      ReadFile logPath = inr logData ->
      Z.of_nat (List.length logData) < 2 ^ 63 ->
      exists c st',
        parseCaLog sa ca logPath st = (inr c, st') /\
        0 <= certOrphansAdded c <= certOrphansFound c /\
        0 <= precertOrphansAdded c <= precertOrphansFound c).
Proof.
  split; [|split; [|split]].
  - intros line st M [D | [whole [group [D [[msg X] | [der [msg [X P]]]]]]]].
    + now rewrite (path_no_der sa ca line st M D).
    + now rewrite (path_bad_hex sa ca line st _ _ _ M D X).
    + pose proof (checkDER_parse_error sa der msg st P) as C.
      now rewrite (path_check_failed sa ca line st _ _ _ _ _ _ M D X C).
  - reflexivity.
  - intros c found added typ st. cbv zeta. unfold tally, bump.
    destruct typ, found, added; cbn; tauto.
  - intros logPath logData st E F Len. unfold parseCaLog. rewrite E, F.
    cbn [FailOnError]. unfold bind at 1.
    set (lines := Strings.SplitLines (string_of_list_byte logData)).
    assert (Hn : 0 + Z.of_nat (nonEmptyLines lines) <= Int64.max).
    { pose proof (SplitLines_nonEmpty (string_of_list_byte logData)) as S.
      rewrite length_string_of_list_byte in S. fold lines in S.
      unfold Int64.max. lia. }
    assert (B0 : bounded 0 noStats) by (unfold bounded; cbn; lia).
    pose proof (processLines_bounded sa ca lines noStats st 0 ltac:(lia) B0 Hn)
      as [[A1 _] [B1 _]].
    destruct (processLines sa ca lines noStats st) as [c st1]. cbn [fst] in *.
    eexists c, _. split; [reflexivity|]. split; assumption.
Qed.

(** ** Further properties of the code *)

(** *** The extracted groups: hexadecimal payload and registration id *)

Lemma lowerHex_fromHexChar c :
  Regexp.lowerHex c = true -> exists v, Hex.fromHexChar c = Some v.
Proof.
  unfold Regexp.lowerHex, Hex.fromHexChar. intros H.
  destruct (Regexp.between "0" "9" c); [eauto|].
  destruct (Regexp.between "a" "f" c); [eauto|discriminate].
Qed.

(** On lowercase digits [hex.DecodeString] depends on the parity of the
    length only. *)
Lemma DecodeString_lowerHex g :
  (Strings.forallb Regexp.lowerHex g = true ->
   if Nat.even (String.length g)
   then exists der, Hex.DecodeString g = inr der /\
                    (2 * List.length der = String.length g)%nat
   else Hex.DecodeString g = inl Hex.ErrLength) /\
  (forall c, Strings.forallb Regexp.lowerHex (String c g) = true ->
   if Nat.even (String.length (String c g))
   then exists der, Hex.DecodeString (String c g) = inr der /\
                    (2 * List.length der = String.length (String c g))%nat
   else Hex.DecodeString (String c g) = inl Hex.ErrLength).
Proof.
  induction g as [|b g [IH1 IH2]].
  - split.
    + intros _. cbn. exists []. auto.
    + intros c F. cbn in F. rewrite andb_true_r in F.
      destruct (lowerHex_fromHexChar c F) as [v E]. cbn. now rewrite E.
  - split; [exact (IH2 b)|].
    intros c F.
    change (Strings.forallb Regexp.lowerHex (String c (String b g)))
      with (Regexp.lowerHex c && (Regexp.lowerHex b && Strings.forallb Regexp.lowerHex g))
      in F.
    apply andb_true_iff in F. destruct F as [Fc F].
    apply andb_true_iff in F. destruct F as [Fb Fg].
    destruct (lowerHex_fromHexChar c Fc) as [x Ex].
    destruct (lowerHex_fromHexChar b Fb) as [y Ey].
    specialize (IH1 Fg).
    change (String.length (String c (String b g))) with (S (S (String.length g))).
    change (Nat.even (S (S (String.length g)))) with (Nat.even (String.length g)).
    change (Hex.DecodeString (String c (String b g)))
      with (match Hex.fromHexChar c with
            | None => inl (Hex.InvalidByteError c)
            | Some x =>
                match Hex.fromHexChar b with
                | None => inl (Hex.InvalidByteError b)
                | Some y =>
                    match Hex.DecodeString g with
                    | inl e => inl e
                    | inr bs => inr (Hex.pack x y :: bs)
                    end
                end
            end).
    rewrite Ex, Ey.
    destruct (Nat.even (String.length g)).
    + destruct IH1 as [der [E L]]. rewrite E. eexists. split; [reflexivity|].
      cbn [List.length]. lia.
    + rewrite IH1. reflexivity.
Qed.

Lemma digit_value c :
  Regexp.digit c = true -> 0 <= Z.of_nat (nat_of_ascii c) - 48 <= 9.
Proof.
  unfold Regexp.digit, Regexp.between. intros H.
  apply andb_true_iff in H. destruct H as [L U].
  apply Nat.leb_le in L, U.
  change (nat_of_ascii "0") with 48%nat in L.
  change (nat_of_ascii "9") with 57%nat in U. lia.
Qed.

Lemma digits_all s :
  Strings.forallb Regexp.digit s = true ->
  forall acc, 0 <= acc -> exists n, Strconv.digits acc s = Some n /\ acc <= n.
Proof.
  induction s as [|c s IH]; intros F acc A.
  - exists acc. split; [reflexivity|lia].
  - cbn in F. apply andb_true_iff in F. destruct F as [Fc Fs].
    pose proof (digit_value c Fc) as V.
    destruct (IH Fs (10 * acc + (Z.of_nat (nat_of_ascii c) - 48)) ltac:(lia))
      as [n [E L]].
    exists n. cbn [Strconv.digits]. rewrite Fc. split; [exact E|lia].
Qed.

(** A run of digits is never a syntax error for [strconv.ParseInt]: it is
    its value when that fits [int64], and a range error otherwise. *)
Lemma ParseInt_digits s :
  Strings.forallb Regexp.digit s = true -> s <> "" ->
  exists n, 0 <= n /\ Strconv.digits 0 s = Some n /\
            Strconv.ParseInt s =
              if n <=? Int64.max then inr n else inl (Strconv.ErrRange s).
Proof.
  intros F N. destruct (digits_all s F 0 ltac:(lia)) as [n [E L]].
  exists n. split; [exact L|]. split; [exact E|].
  destruct s as [|c t]; [congruence|].
  assert (Fc : Regexp.digit c = true).
  { cbn in F. now apply andb_true_iff in F. }
  unfold Strconv.ParseInt.
  assert (S : match String c t with
              | String "+" u => (false, u)
              | String "-" u => (true, u)
              | _ => (false, String c t)
              end = (false, String c t)).
  { destruct c as [[] [] [] [] [] [] [] []]; try reflexivity; discriminate Fc. }
  rewrite S, E. reflexivity.
Qed.

Lemma matchHere_whole key cls s whole group :
  Regexp.matchHere key cls s = Some (whole, group) ->
  whole = key ++ "[" ++ group ++ "]".
Proof.
  unfold Regexp.matchHere.
  destruct (Strings.stripPrefix (key ++ "[") s) as [rest|]; [|discriminate].
  destruct (Strings.span cls rest) as [g r].
  destruct g as [|c g]; [discriminate|].
  destruct r as [|b r]; [discriminate|].
  destruct b as [[] [] [] [] [] [] [] []]; try discriminate.
  intros H. inversion H; subst. reflexivity.
Qed.

Lemma FindStringSubmatch_whole key cls s whole group :
  Regexp.FindStringSubmatch key cls s = [whole; group] ->
  whole = key ++ "[" ++ group ++ "]".
Proof.
  induction s as [|c s IH]; rewrite FindStringSubmatch_unfold.
  - destruct (Regexp.matchHere key cls "") as [[w g]|] eqn:M; [|discriminate].
    intros H. inversion H; subst. exact (matchHere_whole _ _ _ _ _ M).
  - destruct (Regexp.matchHere key cls (String c s)) as [[w g]|] eqn:M.
    + intros H. inversion H; subst. exact (matchHere_whole _ _ _ _ _ M).
    + exact IH.
Qed.

Lemma HasPrefix_append sub post : Strings.HasPrefix (sub ++ post) sub = true.
Proof.
  induction sub as [|a sub IH]; cbn; [destruct post; reflexivity|].
  now rewrite Ascii.eqb_refl, IH.
Qed.

Lemma Contains_unfold s sub :
  Strings.Contains s sub =
  Strings.HasPrefix s sub ||
  match s with
  | EmptyString => false
  | String _ s' => Strings.Contains s' sub
  end.
Proof. destruct s; reflexivity. Qed.

Lemma Contains_append pre sub post :
  Strings.Contains (pre ++ sub ++ post) sub = true.
Proof.
  induction pre as [|c pre IH].
  - change ("" ++ sub ++ post) with (sub ++ post).
    rewrite Contains_unfold, HasPrefix_append. reflexivity.
  - change (String c pre ++ sub ++ post) with (String c (pre ++ sub ++ post)).
    rewrite Contains_unfold, IH. apply orb_true_r.
Qed.

(** X1: the DER pattern matches exactly the lines that hold, somewhere, a
    non-empty run of lowercase hexadecimal digits delimited as
    [cert=\[...\]], and the registration pattern exactly those with a
    non-empty run of decimal digits delimited as [regID=\[...\]]; a match is
    the slice of the whole delimited text and the run. *)
Theorem orphan_patterns_match_iff (line : string) :
  (derOrphan line <> [] <->
   exists pre g post,
     line = pre ++ "cert=[" ++ g ++ "]" ++ post /\
     Strings.forallb Regexp.lowerHex g = true /\ g <> "") /\
  (regOrphan line <> [] <->
   exists pre g post,
     line = pre ++ "regID=[" ++ g ++ "]" ++ post /\
     Strings.forallb Regexp.digit g = true /\ g <> "") /\
  (forall whole group,
      derOrphan line = [whole; group] -> whole = "cert=[" ++ group ++ "]") /\
  (forall whole group,
      regOrphan line = [whole; group] -> whole = "regID=[" ++ group ++ "]").
Proof.
  assert (G : forall key cls, cls "]"%char = false ->
            (Regexp.FindStringSubmatch key cls line <> [] <->
             exists pre g post,
               line = pre ++ key ++ "[" ++ g ++ "]" ++ post /\
               Strings.forallb cls g = true /\ g <> "")).
  { intros key cls B. split.
    - intros N.
      destruct (FindStringSubmatch_shape key cls line) as [E | [w [g E]]];
        [congruence|].
      destruct (FindStringSubmatch_sound _ _ _ _ _ E) as [pre [post H]].
      exists pre, g, post. exact H.
    - intros [pre [g [post [E [F N]]]]].
      destruct (FindStringSubmatch_complete key cls pre g post F N B)
        as [w [g' M]].
      rewrite E, M. discriminate. }
  split; [|split; [|split]].
  - exact (G "cert=" Regexp.lowerHex eq_refl).
  - exact (G "regID=" Regexp.digit eq_refl).
  - intros whole group H. exact (FindStringSubmatch_whole _ _ _ _ _ H).
  - intros whole group H. exact (FindStringSubmatch_whole _ _ _ _ _ H).
Qed.

(** X2: the payload extracted from a matched line decodes exactly when its
    length is even, to half as many bytes; an odd payload takes the audit
    branch of the decoding failure, with the odd-length error, and nothing is
    called.  No other decoding error can occur. *)
Theorem hex_payload_decodes_iff_even sa ca line st whole group :
  scannerMatches line = true ->
  derOrphan line = [whole; group] ->
  if Nat.even (String.length group)
  then exists der, Hex.DecodeString group = inr der /\
                   (2 * List.length der = String.length group)%nat
  else
    storeParsedLogLine sa ca line st =
      ((true, false, unknownOrphan),
       logged st AuditErr
         ("Couldn't decode hex: encoding/hex: odd length hex string, ["
            ++ line ++ "]")).
Proof.
  intros M D.
  destruct (FindStringSubmatch_sound _ _ _ _ _ D) as [_ [_ [_ [F _]]]].
  destruct (DecodeString_lowerHex group) as [H _]. specialize (H F).
  destruct (Nat.even (String.length group)); [exact H|].
  exact (path_bad_hex sa ca line st whole group _ M D H).
Qed.

(** A registration id that parses is between 0 and 2^63-1. *)
Lemma regID_range (line whole group : string) (regID : Z) :
  regOrphan line = [whole; group] ->
  Strconv.ParseInt group = inr regID ->
  0 <= regID <= Int64.max.
Proof.
  intros R PI.
  destruct (FindStringSubmatch_sound _ _ _ _ _ R) as [_ [_ [_ [F N]]]].
  destruct (ParseInt_digits group F N) as [n [P [E H]]].
  rewrite H in PI. destruct (n <=? Int64.max) eqn:L; [|discriminate PI].
  apply Z.leb_le in L. inversion PI; subst. lia.
Qed.


(** X4: a match of the DER pattern implies the marker, so for a labelled
    line without a DER group the marker alone decides between the silent
    no-match and the audited failed match. *)
Theorem marker_decides_failed_match sa ca line st :
  (derOrphan line <> [] -> hasDerMarker line = true) /\
  (hasOrphanLabel line = true ->
   derOrphan line = [] ->
   storeParsedLogLine sa ca line st =
     if hasDerMarker line
     then ((true, false, unknownOrphan),
           logged st AuditErr ("Didn't match regex for cert: " ++ line))
     else ((false, false, unknownOrphan), st)).
Proof.
  split.
  - intros N.
    destruct (FindStringSubmatch_shape "cert=" Regexp.lowerHex line)
      as [E | [w [g E]]]; [unfold derOrphan in N; congruence|].
    destruct (FindStringSubmatch_sound _ _ _ _ _ E) as [pre [post [H _]]].
    unfold hasDerMarker, derMarker. rewrite H. apply Contains_append.
  - intros L D. destruct (hasDerMarker line) eqn:K.
    + apply path_no_der; [|exact D]. unfold scannerMatches. now rewrite L, K.
    + apply storeParsedLogLine_unmatched. unfold scannerMatches.
      rewrite L, K. reflexivity.
Qed.

(** *** The protocol of one line *)

Lemma checkDER_err_cases sai der typ err st st1 :
  checkDER sai der st = (inl (typ, err), st1) ->
  (exists msg, ParseCertificate der = inl msg /\ typ = unknownOrphan /\
               st1 = st /\ isErrAlreadyExists err = false) \/
  (exists cert, ParseCertificate der = inr cert /\
                typ = orphanTypeForCert (Some cert) /\
                trace st1 = (trace st ++ lookupOf cert)%list).
Proof.
  unfold checkDER. destruct (ParseCertificate der) as [msg|c] eqn:Hp.
  - cbv [ret]. intros E. inversion E; subst. left. exists msg. auto.
  - unfold bind.
    pose proof (lookup_trace sai (orphanTypeForCert (Some c))
                  (SerialToString (X509.SerialNumber c)) st) as Ht.
    destruct (lookup sai _ _ st) as [r s1]. cbn [snd] in Ht.
    destruct r as [e|]; [destruct (berrorsIsNotFound e)|]; cbv [ret];
      intros E; inversion E; subst; right; exists c; auto.
Qed.

Lemma lookupOf_single cert :
  exists ev, lookupOf cert = [ev] /\ isLookup ev = true.
Proof.
  unfold lookupOf.
  destruct (orphanTypeForCert_parsed cert) as [T|T]; rewrite T; cbn;
    eexists; split; reflexivity.
Qed.

Lemma insertOf_single cert der regID response :
  exists ev, insertOf cert der regID response = [ev] /\ isInsert ev = true.
Proof.
  unfold insertOf.
  destruct (orphanTypeForCert_parsed cert) as [T|T]; rewrite T; cbn;
    eexists; split; reflexivity.
Qed.

(** The run of a line as an event shape. *)
Lemma line_shape sa ca line st :
  exists evs,
    trace (snd (storeParsedLogLine sa ca line st)) = (trace st ++ evs)%list /\
    lineShape line (fst (storeParsedLogLine sa ca line st)) evs.
Proof.
  destruct (scannerMatches line) eqn:M.
  2:{ rewrite (storeParsedLogLine_unmatched sa ca line st M).
      exists []. rewrite app_nil_r. split; [reflexivity|constructor]. }
  destruct (FindStringSubmatch_shape "cert=" Regexp.lowerHex line)
    as [D | [whole [group D]]]; fold (derOrphan line) in D.
  { rewrite (path_no_der sa ca line st M D). eexists. split; [reflexivity|].
    constructor. auto. }
  destruct (Hex.DecodeString group) as [msg|der] eqn:X.
  { rewrite (path_bad_hex sa ca line st _ _ _ M D X). eexists.
    split; [reflexivity|]. constructor. auto. }
  assert (Dec : decodes line der) by (exists whole, group; auto).
  destruct (checkDER sa der st) as [[[typ err] | [cert typ]] st1] eqn:C.
  { rewrite (path_check_failed sa ca line st _ _ _ _ _ _ M D X C).
    cbn [fst snd]. rewrite logged_trace.
    destruct (checkDER_err_cases _ _ _ _ _ _ C)
      as [[msg [P [-> [-> A]]]] | [cert [P [-> T]]]].
    - rewrite A. eexists. split; [reflexivity|]. constructor. auto.
    - rewrite T, <- app_assoc. eexists. split; [reflexivity|].
      now apply ShapeChecked with (der := der). }
  destruct (checkDER_ok_inv _ _ _ _ _ _ C) as [P [Ty [_ T]]].
  fold (lookupOf cert) in T. subst typ.
  destruct (FindStringSubmatch_shape "regID=" Regexp.digit line)
    as [R | [rw [rg R]]]; fold (regOrphan line) in R.
  { rewrite (path_no_regID sa ca line st _ _ _ _ _ _ M D X C R).
    cbn [fst snd]. rewrite logged_trace, T, <- app_assoc.
    eexists. split; [reflexivity|]. now apply ShapeChecked with (der := der). }
  destruct (Strconv.ParseInt rg) as [msg|regID] eqn:PI.
  { rewrite (path_bad_regID sa ca line st _ _ _ _ _ _ _ _ _ M D X C R PI).
    cbn [fst snd]. rewrite logged_trace, T, <- app_assoc.
    eexists. split; [reflexivity|]. now apply ShapeChecked with (der := der). }
  pose proof (regID_range line rw rg regID R PI) as Range.
  pose proof (generateOCSP_trace ca der st1) as TO.
  destruct (generateOCSP ca der st1) as [[e|response] st2] eqn:O; cbn [snd] in TO.
  { rewrite (path_ocsp_failed sa ca line st _ _ _ _ _ _ _ _ _ _ _ M D X C R PI O).
    cbn [fst snd]. rewrite logged_trace, TO, T, <- !app_assoc.
    eexists. split; [reflexivity|]. now apply ShapeOCSPFailed. }
  rewrite (path_store sa ca line st _ _ _ _ _ _ _ _ _ _ _ M D X C R PI O).
  pose proof (store_trace sa (orphanTypeForCert (Some cert)) der regID response
                (Time.Add (X509.NotBefore cert) backdateDuration) st2) as TS.
  fold (insertOf cert der regID response) in TS.
  destruct (store sa _ der regID response _ st2) as [[e|] st3]; cbn [fst snd] in *.
  - rewrite logged_trace, TS, TO, T, <- !app_assoc.
    eexists. split; [reflexivity|]. now apply ShapeStoreFailed.
  - rewrite TS, TO, T, <- !app_assoc.
    eexists. split; [reflexivity|]. now apply ShapeStored.
Qed.

(** X5: every call of [storeParsedLogLine] appends to the trace one of six
    shapes and returns the matching result: nothing for a line that is no
    match; one diagnostic for a malformed one; then, for the certificate
    parsed from the line's DER, the lookup of its type by its serial, the
    OCSP request for that DER, and the insert of the same type, DER and
    backdated time with a registration id between 0 and 2^63-1, each step
    reached only after the one before, the run ending with one diagnostic
    unless the insert succeeded. *)
Theorem line_protocol sa ca line st :
  let r := storeParsedLogLine sa ca line st in
  exists evs,
    trace (snd r) = (trace st ++ evs)%list /\ lineShape line (fst r) evs.
Proof.
  intros r. destruct (line_shape sa ca line st) as [evs [T S]].
  exists evs. split; [exact T|exact S].
Qed.

Ltac shape_types cert :=
  unfold lookupOf, insertOf, ocspCall in *;
  let T := fresh "T" in
  destruct (orphanTypeForCert_parsed cert) as [T|T]; rewrite T in *;
  cbn [lookupCall insertCall app] in *.

(** X6: a line logs exactly one diagnostic when it is found and not added,
    and none otherwise; it makes at most one lookup, one OCSP request and one
    insert, an insert only after an OCSP request and that only after a
    lookup; the lookup is made exactly when the returned type is determined,
    and a line is added only with all three calls made. *)
Theorem line_diagnostics_and_calls sa ca line st :
  let r := storeParsedLogLine sa ca line st in
  let found := fst (fst (fst r)) in
  let added := snd (fst (fst r)) in
  let typ := snd (fst r) in
  exists evs,
    trace (snd r) = (trace st ++ evs)%list /\
    count isLog evs = (if found && negb added then 1 else 0)%nat /\
    (count isInsert evs <= count isOCSP evs)%nat /\
    (count isOCSP evs <= count isLookup evs)%nat /\
    count isLookup evs = (if orphanType_eqb typ unknownOrphan then 0 else 1)%nat /\
    (added = true ->
     found = true /\ count isLookup evs = 1%nat /\ count isOCSP evs = 1%nat /\
     count isInsert evs = 1%nat).
Proof.
  cbv zeta. destruct (line_shape sa ca line st) as [evs [T S]].
  exists evs. split; [exact T|].
  destruct S as [ | lvl msg L | der cert lvl msg Dc P | der cert msg Dc P
                | der cert regID response msg Dc P Rg
                | der cert regID response Dc P Rg ];
    cbn [fst snd andb negb orphanType_eqb].
  - cbn. repeat split; try lia; discriminate.
  - cbn. repeat split; try lia; discriminate.
  - shape_types cert; cbn; repeat split; try lia; discriminate.
  - shape_types cert; cbn; repeat split; try lia; discriminate.
  - shape_types cert; cbn; repeat split; try lia; discriminate.
  - shape_types cert; cbn; repeat split; try lia; reflexivity.
Qed.

Ltac no_insert :=
  split; intros; cbn in *;
  repeat match goal with
         | H : _ \/ _ |- _ => destruct H as [H|H]
         | H : False |- _ => contradiction H
         | H : @eq event _ _ |- _ => discriminate H
         end.

(** X7: an insert is always of the kind of the lookup before it, for the
    DER that was decoded from the line, parsed and sent to the OCSP
    generator: a certificate insert follows [GetCertificate] and carries
    NotBefore plus the backdate, a precertificate insert follows
    [GetPrecertificate] and carries its [UnixNano]; the other kind of call is
    never made on the same line, and the registration id is between 0 and
    2^63-1. *)
Theorem insert_matches_lookup sa ca line st :
  let r := storeParsedLogLine sa ca line st in
  exists evs,
    trace (snd r) = (trace st ++ evs)%list /\
    (forall der regID response issued,
        In (CallAddCertificate der regID response issued) evs ->
        exists cert,
          decodes line der /\ ParseCertificate der = inr cert /\
          snd (fst r) = certOrphan /\
          orphanTypeForCert (Some cert) = certOrphan /\
          issued = Time.Add (X509.NotBefore cert) backdateDuration /\
          0 <= regID <= Int64.max /\
          exists tail,
            evs = CallGetCertificate (SerialToString (X509.SerialNumber cert))
                  :: ocspCall der
                  :: CallAddCertificate der regID response issued :: tail /\
            (tail = [] \/ exists msg, tail = [Log AuditErr msg])) /\
    (forall req,
        In (CallAddPrecertificate req) evs ->
        exists cert,
          decodes line (Der req) /\ ParseCertificate (Der req) = inr cert /\
          snd (fst r) = precertOrphan /\
          orphanTypeForCert (Some cert) = precertOrphan /\
          Issued req =
            Time.UnixNano (Time.Add (X509.NotBefore cert) backdateDuration) /\
          0 <= RegID req <= Int64.max /\
          exists tail,
            evs = CallGetPrecertificate (SerialToString (X509.SerialNumber cert))
                  :: ocspCall (Der req)
                  :: CallAddPrecertificate req :: tail /\
            (tail = [] \/ exists msg, tail = [Log AuditErr msg])).
Proof.
  cbv zeta. destruct (line_shape sa ca line st) as [evs [T S]].
  exists evs. split; [exact T|].
  destruct S as [ | lvl msg L | der cert lvl msg Dc P | der cert msg Dc P
                | der cert regID response msg Dc P Rg
                | der cert regID response Dc P Rg ];
    cbn [fst snd].
  - no_insert.
  - no_insert.
  - pose proof (orphanTypeForCert_parsed cert) as Ty.
    unfold lookupOf. destruct Ty as [E|E]; rewrite E; cbn; no_insert.
  - pose proof (orphanTypeForCert_parsed cert) as Ty.
    unfold lookupOf, ocspCall. destruct Ty as [E|E]; rewrite E; cbn; no_insert.
  - pose proof (orphanTypeForCert_parsed cert) as Ty.
    unfold lookupOf, insertOf. destruct Ty as [E|E]; rewrite E; cbn [lookupCall insertCall app].
    + split.
      * intros d i o t [H|[H|[H|[H|H]]]]; try discriminate H; [|contradiction].
        inversion H; subst. exists cert. repeat split; auto; try lia.
        eexists. split; [reflexivity|]. right. eexists. reflexivity.
      * intros q [H|[H|[H|[H|H]]]]; try discriminate H; contradiction.
    + split.
      * intros d i o t [H|[H|[H|[H|H]]]]; try discriminate H; contradiction.
      * intros q [H|[H|[H|[H|H]]]]; try discriminate H; [|contradiction].
        inversion H; subst. cbn [Der RegID Issued Ocsp].
        exists cert. repeat split; auto; try lia.
        eexists. split; [reflexivity|]. right. eexists. reflexivity.
  - pose proof (orphanTypeForCert_parsed cert) as Ty.
    unfold lookupOf, insertOf. destruct Ty as [E|E]; rewrite E; cbn [lookupCall insertCall app].
    + split.
      * intros d i o t [H|[H|[H|H]]]; try discriminate H; [|contradiction].
        inversion H; subst. exists cert. repeat split; auto; try lia.
        exists []. split; [reflexivity|]. left. reflexivity.
      * intros q [H|[H|[H|H]]]; try discriminate H; contradiction.
    + split.
      * intros d i o t [H|[H|[H|H]]]; try discriminate H; contradiction.
      * intros q [H|[H|[H|H]]]; try discriminate H; [|contradiction].
        inversion H; subst. cbn [Der RegID Issued Ocsp].
        exists cert. repeat split; auto; try lia.
        exists []. split; [reflexivity|]. left. reflexivity.
Qed.

(** *** The label is only a filter *)

Lemma same_group key cls l1 l2 :
  tl (Regexp.FindStringSubmatch key cls l1) = tl (Regexp.FindStringSubmatch key cls l2) ->
  (Regexp.FindStringSubmatch key cls l1 = [] /\
   Regexp.FindStringSubmatch key cls l2 = []) \/
  exists w1 w2 g,
    Regexp.FindStringSubmatch key cls l1 = [w1; g] /\
    Regexp.FindStringSubmatch key cls l2 = [w2; g].
Proof.
  destruct (FindStringSubmatch_shape key cls l1) as [E1 | [w1 [g1 E1]]];
    destruct (FindStringSubmatch_shape key cls l2) as [E2 | [w2 [g2 E2]]];
    rewrite E1, E2; cbn [tl]; intros H; try discriminate H.
  - left. auto.
  - right. inversion H; subst. exists w1, w2, g2. auto.
Qed.

Lemma calls_of_logged (st : State World) lvl msg :
  filter isRemoteCall (trace (logged st lvl msg)) = filter isRemoteCall (trace st).
Proof. rewrite logged_trace, filter_app. cbn. apply app_nil_r. Qed.

(** X8: two matched lines with the same DER group and the same
    registration-id group are processed alike, whatever their labels and the
    rest of their text: same result, same remote calls in the same order,
    same world afterwards; only the text of the diagnostic differs. *)
Theorem label_is_only_a_filter sa ca l1 l2 st :
  scannerMatches l1 = true ->
  scannerMatches l2 = true ->
  tl (derOrphan l1) = tl (derOrphan l2) ->
  tl (regOrphan l1) = tl (regOrphan l2) ->
  let r1 := storeParsedLogLine sa ca l1 st in
  let r2 := storeParsedLogLine sa ca l2 st in
  fst r1 = fst r2 /\
  world (snd r1) = world (snd r2) /\
  filter isRemoteCall (trace (snd r1)) = filter isRemoteCall (trace (snd r2)).
Proof.
  intros M1 M2 HD HR. cbv zeta.
  destruct (same_group _ _ _ _ HD) as [[D1 D2] | [w1 [w2 [group [D1 D2]]]]];
    fold (derOrphan l1) in D1; fold (derOrphan l2) in D2.
  { rewrite (path_no_der sa ca l1 st M1 D1), (path_no_der sa ca l2 st M2 D2).
    cbn [fst snd]. rewrite !calls_of_logged. auto. }
  destruct (Hex.DecodeString group) as [msg|der] eqn:X.
  { rewrite (path_bad_hex sa ca l1 st _ _ _ M1 D1 X),
            (path_bad_hex sa ca l2 st _ _ _ M2 D2 X).
    cbn [fst snd]. rewrite !calls_of_logged. auto. }
  destruct (checkDER sa der st) as [[[typ err] | [cert typ]] st1] eqn:C.
  { rewrite (path_check_failed sa ca l1 st _ _ _ _ _ _ M1 D1 X C),
            (path_check_failed sa ca l2 st _ _ _ _ _ _ M2 D2 X C).
    cbn [fst snd]. rewrite !calls_of_logged. auto. }
  destruct (same_group _ _ _ _ HR) as [[R1 R2] | [v1 [v2 [rg [R1 R2]]]]];
    fold (regOrphan l1) in R1; fold (regOrphan l2) in R2.
  { rewrite (path_no_regID sa ca l1 st _ _ _ _ _ _ M1 D1 X C R1),
            (path_no_regID sa ca l2 st _ _ _ _ _ _ M2 D2 X C R2).
    cbn [fst snd]. rewrite !calls_of_logged. auto. }
  destruct (Strconv.ParseInt rg) as [msg|regID] eqn:PI.
  { rewrite (path_bad_regID sa ca l1 st _ _ _ _ _ _ _ _ _ M1 D1 X C R1 PI),
            (path_bad_regID sa ca l2 st _ _ _ _ _ _ _ _ _ M2 D2 X C R2 PI).
    cbn [fst snd]. rewrite !calls_of_logged. auto. }
  destruct (generateOCSP ca der st1) as [[e|response] st2] eqn:O.
  { rewrite (path_ocsp_failed sa ca l1 st _ _ _ _ _ _ _ _ _ _ _ M1 D1 X C R1 PI O),
            (path_ocsp_failed sa ca l2 st _ _ _ _ _ _ _ _ _ _ _ M2 D2 X C R2 PI O).
    cbn [fst snd]. rewrite !calls_of_logged. auto. }
  rewrite (path_store sa ca l1 st _ _ _ _ _ _ _ _ _ _ _ M1 D1 X C R1 PI O),
          (path_store sa ca l2 st _ _ _ _ _ _ _ _ _ _ _ M2 D2 X C R2 PI O).
  destruct (store sa typ der regID response _ st2) as [[e|] st3]; cbn [fst snd].
  - rewrite !calls_of_logged. auto.
  - auto.
Qed.

(** *** The batch loop *)

Lemma line_type_after_check sa ca line st whole group der cert typ st1 :
  scannerMatches line = true ->
  derOrphan line = [whole; group] ->
  Hex.DecodeString group = inr der ->
  checkDER sa der st = (inr (cert, typ), st1) ->
  snd (fst (storeParsedLogLine sa ca line st)) = typ.
Proof.
  intros M D X C.
  destruct (FindStringSubmatch_shape "regID=" Regexp.digit line)
    as [R | [rw [rg R]]]; fold (regOrphan line) in R.
  { now rewrite (path_no_regID sa ca line st _ _ _ _ _ _ M D X C R). }
  destruct (Strconv.ParseInt rg) as [msg|regID] eqn:PI.
  { now rewrite (path_bad_regID sa ca line st _ _ _ _ _ _ _ _ _ M D X C R PI). }
  destruct (generateOCSP ca der st1) as [[e|response] st2] eqn:O.
  { now rewrite (path_ocsp_failed sa ca line st _ _ _ _ _ _ _ _ _ _ _ M D X C R PI O). }
  rewrite (path_store sa ca line st _ _ _ _ _ _ _ _ _ _ _ M D X C R PI O).
  destruct (fst (store sa typ der regID response _ st2)); reflexivity.
Qed.

(** A matched line of unknown type stopped before the lookup, with one
    diagnostic. *)
Lemma unknown_type_inv sa ca line st :
  scannerMatches line = true ->
  snd (fst (storeParsedLogLine sa ca line st)) = unknownOrphan ->
  exists lvl msg,
    storeParsedLogLine sa ca line st
    = ((true, false, unknownOrphan), logged st lvl msg) /\
    (lvl = AuditErr \/ lvl = Err).
Proof.
  intros M U.
  destruct (FindStringSubmatch_shape "cert=" Regexp.lowerHex line)
    as [D | [whole [group D]]]; fold (derOrphan line) in D.
  { rewrite (path_no_der sa ca line st M D). eauto. }
  destruct (Hex.DecodeString group) as [msg|der] eqn:X.
  { rewrite (path_bad_hex sa ca line st _ _ _ M D X). eauto. }
  destruct (checkDER sa der st) as [[[typ err] | [cert typ]] st1] eqn:C.
  - rewrite (path_check_failed sa ca line st _ _ _ _ _ _ M D X C) in *.
    cbn [fst snd] in U. subst typ.
    destruct (checkDER_err_cases _ _ _ _ _ _ C)
      as [[msg [P [_ [-> A]]]] | [cert [P [Ty _]]]].
    + rewrite A. eauto.
    + exfalso. destruct (orphanTypeForCert_parsed cert) as [T|T];
        rewrite T in Ty; discriminate.
  - exfalso.
    rewrite (line_type_after_check sa ca line st _ _ _ _ _ _ M D X C) in U.
    destruct (checkDER_ok_inv _ _ _ _ _ _ C) as [_ [_ [N _]]]. contradiction.
Qed.

(** X9: the loop skips an empty line without a trace; a non-empty line
    that is no orphan record changes no counter and is logged at error level
    as an orphan of unknown type; so is, after its own diagnostic, a matched
    line whose type stays unknown. *)
Theorem batch_skips_and_logs sa ca line rest c st :
  (Strings.isEmpty line = true ->
   processLines sa ca (line :: rest) c st = processLines sa ca rest c st) /\
  (Strings.isEmpty line = false ->
   scannerMatches line = false ->
   processLines sa ca (line :: rest) c st =
     processLines sa ca rest c (logged st Err "Found orphan type unknown")) /\
  (scannerMatches line = true ->
   snd (fst (storeParsedLogLine sa ca line st)) = unknownOrphan ->
   exists lvl msg,
     (lvl = AuditErr \/ lvl = Err) /\
     processLines sa ca (line :: rest) c st =
       processLines sa ca rest c
         (logged (logged st lvl msg) Err "Found orphan type unknown")).
Proof.
  split; [|split].
  - intros E. cbn [processLines]. now rewrite E.
  - intros E M. cbn [processLines]. rewrite E. unfold bind at 1.
    rewrite (storeParsedLogLine_unmatched sa ca line st M). reflexivity.
  - intros M U.
    destruct (unknown_type_inv sa ca line st M U) as [lvl [msg [E L]]].
    exists lvl, msg. split; [exact L|].
    rewrite (processLines_step sa ca line rest c st M).
    unfold bind at 1. rewrite E. reflexivity.
Qed.

(** What a line contributes to the calls of the kind [t]. *)
Lemma line_kind_counts sa ca line st (t : orphanType) :
  t <> unknownOrphan ->
  let r := storeParsedLogLine sa ca line st in
  let found := fst (fst (fst r)) in
  let added := snd (fst (fst r)) in
  let typ := snd (fst r) in
  (typ <> unknownOrphan -> found = true) /\
  exists evs,
    trace (snd r) = (trace st ++ evs)%list /\
    count (isLookupOf t) evs = (if orphanType_eqb t typ then 1 else 0)%nat /\
    ((if added && orphanType_eqb t typ then 1 else 0) <= count (isInsertOf t) evs)%nat.
Proof.
  intros N. cbv zeta. destruct (line_shape sa ca line st) as [evs [T S]].
  split.
  - destruct S; cbn [fst snd]; congruence.
  - exists evs. split; [exact T|].
    destruct S as [ | lvl msg L | der cert lvl msg Dc P | der cert msg Dc P
                  | der cert regID response msg Dc P Rg
                  | der cert regID response Dc P Rg ];
      cbn [fst snd andb].
    + destruct t; cbn; split; (congruence || lia).
    + destruct t; cbn; split; (congruence || lia).
    + shape_types cert; destruct t; cbn; split; (congruence || lia).
    + shape_types cert; destruct t; cbn; split; (congruence || lia).
    + shape_types cert; destruct t; cbn; split; (congruence || lia).
    + shape_types cert; destruct t; cbn; split; (congruence || lia).
Qed.

Lemma tally_kind n c found added typ st (t : orphanType) :
  t <> unknownOrphan ->
  bounded n c -> 0 <= n < Int64.max ->
  (typ <> unknownOrphan -> found = true) ->
  let r := tally c (found, added, typ) st in
  foundOf t (fst r) = foundOf t c + (if orphanType_eqb t typ then 1 else 0) /\
  addedOf t (fst r) =
    addedOf t c + (if added && orphanType_eqb t typ then 1 else 0) /\
  world (snd r) = world st /\
  forall p, (forall lvl msg, p (Log lvl msg) = false) ->
            count p (trace (snd r)) = count p (trace st).
Proof.
  intros N [[A1 A2] [B1 B2]] Hn F. cbv zeta. unfold tally, bump.
  destruct typ.
  - destruct t; try congruence; destruct added; cbn; (repeat split; try lia);
      intros p Hp; unfold count; rewrite filter_app; cbn; rewrite Hp;
      now rewrite app_nil_r.
  - rewrite (F ltac:(discriminate)).
    destruct t; try congruence; destruct added;
      cbn [fst snd ret foundOf addedOf certOrphansFound certOrphansAdded
               precertOrphansFound precertOrphansAdded orphanType_eqb andb];
      rewrite ?incr_small by lia; repeat split; lia.
  - rewrite (F ltac:(discriminate)).
    destruct t; try congruence; destruct added;
      cbn [fst snd ret foundOf addedOf certOrphansFound certOrphansAdded
               precertOrphansFound precertOrphansAdded orphanType_eqb andb];
      rewrite ?incr_small by lia; repeat split; lia.
Qed.

Lemma isLookupOf_log t lvl msg : isLookupOf t (Log lvl msg) = false.
Proof. destruct t; reflexivity. Qed.

Lemma isInsertOf_log t lvl msg : isInsertOf t (Log lvl msg) = false.
Proof. destruct t; reflexivity. Qed.

Lemma processLines_accounts sa ca (t : orphanType) lines :
  t <> unknownOrphan ->
  forall c st n,
    0 <= n -> bounded n c ->
    n + Z.of_nat (nonEmptyLines lines) <= Int64.max ->
    let r := processLines sa ca lines c st in
    foundOf t (fst r) + Z.of_nat (count (isLookupOf t) (trace st))
    = foundOf t c + Z.of_nat (count (isLookupOf t) (trace (snd r))) /\
    addedOf t (fst r) + Z.of_nat (count (isInsertOf t) (trace st))
    <= addedOf t c + Z.of_nat (count (isInsertOf t) (trace (snd r))).
Proof.
  intros N. induction lines as [|line rest IH]; intros c st n Hn B H.
  - cbn. lia.
  - cbv zeta. cbn [processLines]. unfold nonEmptyLines in *. cbn [filter] in *.
    destruct (Strings.isEmpty line); cbn [negb] in *.
    + now apply IH with (n := n).
    + cbn [List.length] in *. rewrite Nat2Z.inj_succ in *.
      unfold bind.
      pose proof (line_kind_counts sa ca line st t N) as L. cbv zeta in L.
      destruct (storeParsedLogLine sa ca line st) as [[[found added] typ] st1].
      cbn [fst snd] in L. destruct L as [F [evs [T [CL CI]]]].
      pose proof (tally_kind n c found added typ st1 t N B ltac:(lia) F) as K.
      pose proof (tally_bounded n c (found, added, typ) st1 B ltac:(lia)) as B'.
      cbv zeta in K.
      destruct (tally c (found, added, typ) st1) as [c' st2].
      cbn [fst snd] in K, B'. destruct K as [KF [KA [_ KP]]].
      pose proof (KP (isLookupOf t) (isLookupOf_log t)) as PL.
      pose proof (KP (isInsertOf t) (isInsertOf_log t)) as PI.
      specialize (IH c' st2 (n + 1) ltac:(lia) B' ltac:(lia)).
      cbv zeta in IH. destruct IH as [IF IA].
      rewrite PL in IF. rewrite PI in IA.
      rewrite T, count_app in IF. rewrite T, count_app in IA.
      rewrite KF in IF. rewrite KA in IA.
      destruct (orphanType_eqb t typ), added; cbn [andb] in *; split; lia.
Qed.

(** X10: once the log file is read the batch always completes and ends
    with its two summary messages; for a log of fewer than 2^63 bytes each
    found counter is the number of lookups of its kind made during the run,
    and each added counter is at most the number of inserts of its kind. *)
Theorem counters_account_for_calls sa ca logPath logData st :
  Strings.isEmpty logPath = false ->
  ReadFile logPath = inr logData ->
  Z.of_nat (List.length logData) < 2 ^ 63 ->
  exists c evs,
    fst (parseCaLog sa ca logPath st) = inr c /\
    trace (snd (parseCaLog sa ca logPath st)) =
      (trace st ++ evs
         ++ [Log Info ("Found " ++ fmtInt (certOrphansFound c)
                       ++ " certificate orphans and added "
                       ++ fmtInt (certOrphansAdded c) ++ " to the database");
             Log Info ("Found " ++ fmtInt (precertOrphansFound c)
                       ++ " precertificate orphans and added "
                       ++ fmtInt (precertOrphansAdded c) ++ " to the database")])%list /\
    certOrphansFound c = Z.of_nat (count (isLookupOf certOrphan) evs) /\
    precertOrphansFound c = Z.of_nat (count (isLookupOf precertOrphan) evs) /\
    certOrphansAdded c <= Z.of_nat (count (isInsertOf certOrphan) evs) /\
    precertOrphansAdded c <= Z.of_nat (count (isInsertOf precertOrphan) evs).
Proof.
  intros E F Len. unfold parseCaLog. rewrite E, F. cbn [FailOnError].
  unfold bind, Infof, emit, ret.
  set (lines := Strings.SplitLines (string_of_list_byte logData)).
  assert (Hn : 0 + Z.of_nat (nonEmptyLines lines) <= Int64.max).
  { pose proof (SplitLines_nonEmpty (string_of_list_byte logData)) as S.
    rewrite length_string_of_list_byte in S. fold lines in S.
    unfold Int64.max. lia. }
  assert (B0 : bounded 0 noStats) by (unfold bounded; cbn; lia).
  pose proof (processLines_accounts sa ca certOrphan lines ltac:(discriminate)
                noStats st 0 ltac:(lia) B0 Hn) as AC.
  pose proof (processLines_accounts sa ca precertOrphan lines ltac:(discriminate)
                noStats st 0 ltac:(lia) B0 Hn) as AP.
  assert (G : exists evs, trace (snd (processLines sa ca lines noStats st))
                          = (trace st ++ evs)%list).
  { clear. generalize noStats as c. revert st.
    induction lines as [|line rest IH]; intros st c.
    - exists []. cbn. now rewrite app_nil_r.
    - cbn [processLines]. destruct (Strings.isEmpty line); [apply IH|].
      unfold bind.
      destruct (line_shape sa ca line st) as [e1 [T1 _]].
      destruct (storeParsedLogLine sa ca line st) as [r st1]. cbn [snd] in T1.
      assert (T2 : exists e2, trace (snd (tally c r st1)) = (trace st1 ++ e2)%list).
      { destruct r as [[f a] ty]. unfold tally, bump.
        destruct ty; [eexists; reflexivity| |];
          destruct f, a; exists []; cbn; now rewrite app_nil_r. }
      destruct T2 as [e2 T2].
      destruct (tally c r st1) as [c' st2]. cbn [snd] in T2.
      destruct (IH st2 c') as [e3 T3].
      exists (e1 ++ e2 ++ e3)%list. rewrite T3, T2, T1, <- !app_assoc.
      reflexivity. }
  destruct G as [evs G]. cbv zeta in AC, AP.
  destruct (processLines sa ca lines noStats st) as [c st1].
  cbn [fst snd] in *. exists c, evs.
  split; [reflexivity|]. split.
  { cbn [trace world]. rewrite G, <- !app_assoc. reflexivity. }
  rewrite G, count_app in AC. rewrite G, count_app in AP.
  destruct AC as [AC1 AC2]. destruct AP as [AP1 AP2].
  rewrite count_app in AC2, AP2. cbn [foundOf addedOf noStats certOrphansFound
    certOrphansAdded precertOrphansFound precertOrphansAdded] in *.
  repeat split; lia.
Qed.

(** *** Splitting a batch *)

Lemma SplitLines_cons s : exists h r, Strings.SplitLines s = h :: r.
Proof.
  induction s as [|c s [h [r IH]]]; cbn [Strings.SplitLines].
  - eauto.
  - destruct (Ascii.eqb c (ascii_of_nat 10)); [eauto|]. rewrite IH. eauto.
Qed.

Lemma SplitLines_newline a b :
  Strings.SplitLines (a ++ String (ascii_of_nat 10) b)
  = (Strings.SplitLines a ++ Strings.SplitLines b)%list.
Proof.
  induction a as [|c a IH].
  - cbn [append Strings.SplitLines]. rewrite Ascii.eqb_refl. reflexivity.
  - cbn [append Strings.SplitLines].
    destruct (Ascii.eqb c (ascii_of_nat 10)).
    + rewrite IH. reflexivity.
    + rewrite IH. destruct (SplitLines_cons a) as [h [r E]]. rewrite E.
      reflexivity.
Qed.

Lemma processLines_app sa ca l1 l2 :
  forall c st,
    processLines sa ca (l1 ++ l2) c st =
    (c1 <- processLines sa ca l1 c ;; processLines sa ca l2 c1) st.
Proof.
  induction l1 as [|line rest IH]; intros c st.
  - reflexivity.
  - cbn [app processLines]. destruct (Strings.isEmpty line); [apply IH|].
    unfold bind in *.
    destruct (storeParsedLogLine sa ca line st) as [r st1].
    destruct (tally c r st1) as [c' st2]. apply IH.
Qed.

(** X11: a log cut at a line feed can be processed in two parts: running
    the loop on the first part and then, with the counters and the state it
    left, on the second gives the counters and the trace of the whole log. *)
Theorem batch_splits_at_newline sa ca (a b : string) c st :
  processLines sa ca (Strings.SplitLines (a ++ String (ascii_of_nat 10) b)) c st =
  (c1 <- processLines sa ca (Strings.SplitLines a) c ;;
   processLines sa ca (Strings.SplitLines b) c1) st.
Proof. rewrite SplitLines_newline. apply processLines_app. Qed.

(** *** The [parse-der] command *)

(** The run of the [parse-der] command as an event shape. *)
Lemma parseDer_shape sa ca derPath regID st :
  exists evs,
    trace (snd (parseDer sa ca derPath regID st)) = (trace st ++ evs)%list /\
    derShape derPath regID (fst (parseDer sa ca derPath regID st)) evs.
Proof.
  destruct (Strings.isEmpty derPath) eqn:E.
  { unfold parseDer. rewrite E. cbn [orb]. exists []. rewrite app_nil_r.
    split; [reflexivity|]. constructor. auto. }
  destruct (Z.eq_dec regID 0) as [Z0|Z0].
  { unfold parseDer. rewrite E. subst regID. cbn [orb Z.eqb].
    exists []. rewrite app_nil_r. split; [reflexivity|]. constructor. auto. }
  destruct (ReadFile derPath) as [err|der] eqn:F.
  { unfold parseDer. rewrite E. apply Z.eqb_neq in Z0 as Zb. rewrite Zb, F.
    cbn [orb FailOnError]. exists []. rewrite app_nil_r.
    split; [reflexivity|]. now constructor. }
  destruct (checkDER sa der st) as [[[typ err] | [cert typ]] st1] eqn:C.
  { rewrite (parseDer_check_failed sa ca derPath regID der _ _ st _ E Z0 F C).
    cbn [fst snd].
    destruct (checkDER_err_cases _ _ _ _ _ _ C)
      as [[msg [P [_ [-> _]]]] | [cert [P [_ T]]]].
    - exists []. rewrite app_nil_r. split; [reflexivity|].
      assert (Em : Error err = "Failed to parse orphan DER: " ++ msg).
      { rewrite (checkDER_parse_error sa der msg st P) in C.
        inversion C. reflexivity. }
      rewrite Em. now apply DerUnparsed with (der := der).
    - exists (lookupOf cert). split; [exact T|].
      now apply DerChecked with (der := der). }
  destruct (checkDER_ok_inv _ _ _ _ _ _ C) as [P [Ty [_ T]]].
  fold (lookupOf cert) in T. subst typ.
  pose proof (generateOCSP_trace ca der st1) as TO.
  destruct (generateOCSP ca der st1) as [[e|response] st2] eqn:O; cbn [snd] in TO.
  { rewrite (parseDer_ocsp_failed sa ca derPath regID der cert _ e st st1 st2
               E Z0 F C O).
    cbn [fst snd]. exists (lookupOf cert ++ [ocspCall der])%list.
    rewrite TO, T, <- app_assoc. split; [reflexivity|].
    now apply DerOCSPFailed. }
  rewrite (parseDer_store sa ca derPath regID der cert _ response st st1 st2
             E Z0 F C O).
  pose proof (store_trace sa (orphanTypeForCert (Some cert)) der regID response
                (Time.Add (X509.NotBefore cert) backdateDuration) st2) as TS.
  fold (insertOf cert der regID response) in TS.
  destruct (store sa _ der regID response _ st2) as [[e|] st3]; cbn [fst snd] in *.
  - eexists. rewrite TS, TO, T, <- !app_assoc. split; [reflexivity|].
    cbn [errOf FailOnError]. now apply DerStoreFailed.
  - eexists. rewrite TS, TO, T, <- !app_assoc. split; [reflexivity|].
    cbn [errOf FailOnError]. now apply DerStored.
Qed.

(** X12: every run of the [parse-der] command ends in one of seven ways:
    the usage exit for an empty path or a zero registration id, and the
    failure exits for an unreadable file and an unparsable DER, all without
    any call; the failure exits after the lookup, after the OCSP request and
    after the insert; and the normal end after all three.  The calls are
    those of the certificate parsed from the file, the insert carries the
    registration id of the flag and the backdated time, and nothing is
    logged. *)
Theorem parseDer_protocol sa ca derPath regID st :
  let r := parseDer sa ca derPath regID st in
  exists evs,
    trace (snd r) = (trace st ++ evs)%list /\
    derShape derPath regID (fst r) evs.
Proof.
  intros r. destruct (parseDer_shape sa ca derPath regID st) as [evs [T S]].
  exists evs. split; [exact T|exact S].
Qed.

(** *** Running a line again *)

Lemma added_inv sa ca line st :
  snd (fst (fst (storeParsedLogLine sa ca line st))) = true ->
  scannerMatches line = true /\
  exists whole group der cert typ st1 regID response st2,
    derOrphan line = [whole; group] /\
    Hex.DecodeString group = inr der /\
    checkDER sa der st = (inr (cert, typ), st1) /\
    storeParsedLogLine sa ca line st =
      ((true, true, typ),
       snd (store sa typ der regID response
                  (Time.Add (X509.NotBefore cert) backdateDuration) st2)) /\
    fst (store sa typ der regID response
               (Time.Add (X509.NotBefore cert) backdateDuration) st2) = None.
Proof.
  intros A. destruct (scannerMatches line) eqn:M.
  2:{ rewrite (storeParsedLogLine_unmatched sa ca line st M) in A. discriminate. }
  split; [reflexivity|].
  destruct (FindStringSubmatch_shape "cert=" Regexp.lowerHex line)
    as [D | [whole [group D]]]; fold (derOrphan line) in D.
  { rewrite (path_no_der sa ca line st M D) in A. discriminate. }
  destruct (Hex.DecodeString group) as [msg|der] eqn:X.
  { rewrite (path_bad_hex sa ca line st _ _ _ M D X) in A. discriminate. }
  destruct (checkDER sa der st) as [[[typ err] | [cert typ]] st1] eqn:C.
  { rewrite (path_check_failed sa ca line st _ _ _ _ _ _ M D X C) in A.
    discriminate. }
  destruct (FindStringSubmatch_shape "regID=" Regexp.digit line)
    as [R | [rw [rg R]]]; fold (regOrphan line) in R.
  { rewrite (path_no_regID sa ca line st _ _ _ _ _ _ M D X C R) in A.
    discriminate. }
  destruct (Strconv.ParseInt rg) as [msg|regID] eqn:PI.
  { rewrite (path_bad_regID sa ca line st _ _ _ _ _ _ _ _ _ M D X C R PI) in A.
    discriminate. }
  destruct (generateOCSP ca der st1) as [[e|response] st2] eqn:O.
  { rewrite (path_ocsp_failed sa ca line st _ _ _ _ _ _ _ _ _ _ _ M D X C R PI O)
      in A. discriminate. }
  pose proof (path_store sa ca line st _ _ _ _ _ _ _ _ _ _ _ M D X C R PI O) as E.
  cbv zeta in E. rewrite E in A.
  exists whole, group, der, cert, typ, st1, regID, response, st2.
  destruct (store sa typ der regID response _ st2) as [[e|] st3] eqn:S;
    cbn [fst snd] in *; [discriminate|].
  repeat split; auto.
Qed.

(** X13: with a storage in which a successful insert makes the lookup of
    the inserted certificate succeed, a line that was added is not added
    again: processed a second time it is reported found and not added, with
    the informational message, after the lookup alone. *)
Theorem rerun_adds_nothing sa ca line st :
  (forall typ der regID response issued st0 cert,
      ParseCertificate der = inr cert ->
      typ = orphanTypeForCert (Some cert) ->
      fst (store sa typ der regID response issued st0) = None ->
      fst (lookup sa typ (SerialToString (X509.SerialNumber cert))
                  (snd (store sa typ der regID response issued st0))) = None) ->
  let r1 := storeParsedLogLine sa ca line st in
  snd (fst (fst r1)) = true ->
  let r2 := storeParsedLogLine sa ca line (snd r1) in
  fst r2 = (true, false, snd (fst r1)) /\
  exists ev,
    isLookup ev = true /\
    trace (snd r2) =
      (trace (snd r1)
         ++ [ev; Log Info ("Certificate already exists in DB, [" ++ line ++ "]")])%list.
Proof.
  intros Law r1 A r2.
  destruct (added_inv sa ca line st A)
    as (M & whole & group & der & cert & typ & st1 & regID & response & st2
          & D & X & C & E & S).
  destruct (checkDER_ok_inv _ _ _ _ _ _ C) as [P [Ty _]].
  subst r2 r1. rewrite E. cbn [fst snd].
  set (st3 := snd (store sa typ der regID response
                         (Time.Add (X509.NotBefore cert) backdateDuration) st2)).
  pose proof (Law typ der regID response _ st2 cert P Ty S) as L. fold st3 in L.
  rewrite Ty in L.
  pose proof (checkDER_exists sa der cert st3 P L) as C2.
  rewrite (path_check_failed sa ca line st3 whole group der _ _ _ M D X C2).
  cbn [fst snd isErrAlreadyExists Error].
  rewrite logged_trace, lookup_trace.
  destruct (lookupOf_single cert) as [ev [Ev Il]]. unfold lookupOf in Ev.
  rewrite Ev. split; [now rewrite Ty|].
  exists ev. split; [exact Il|]. rewrite <- app_assoc. reflexivity.
Qed.

(** *** Backdating and classification *)

Lemma Time_eq (a b : Time.Time) :
  Time.wellFormed a -> Time.wellFormed b ->
  Time.nanos a = Time.nanos b -> a = b.
Proof.
  destruct a as [sa na], b as [sb nb].
  unfold Time.wellFormed, Time.nanos. cbn [Time.sec Time.nsec].
  intros Wa Wb E. assert (sa = sb) by nia. subst sb.
  assert (na = nb) by lia. now subst nb.
Qed.

(** X14: adding the backdate undoes the backdating: for a certificate
    whose NotBefore is a signing time moved back by the backdate, the time
    given to the insert is that signing time. *)
Theorem backdating_recovers_signing_time (cert : X509.Certificate)
        (signed : Time.Time) der regID response :
  Time.wellFormed signed ->
  X509.NotBefore cert = Time.Add signed (- backdateDuration) ->
  Time.Add (X509.NotBefore cert) backdateDuration = signed /\
  insertOf cert der regID response =
    insertCall (orphanTypeForCert (Some cert)) der regID response signed.
Proof.
  intros W NB.
  assert (E : Time.Add (X509.NotBefore cert) backdateDuration = signed).
  { rewrite NB.
    destruct (Add_nanos signed (- backdateDuration) W) as [N1 W1].
    destruct (Add_nanos _ backdateDuration W1) as [N2 W2].
    apply Time_eq; [exact W2|exact W|]. rewrite N2, N1. lia. }
  split; [exact E|]. unfold insertOf. now rewrite E.
Qed.

(** X15: the classification depends on the set of extension ids only:
    two certificates with the same ids, in any order and multiplicity and
    whatever their criticality, values, serials and dates, have the same
    orphan type. *)
Theorem classification_depends_on_ids (c1 c2 : X509.Certificate) :
  (forall id, In id (map X509.Id (X509.Extensions c1)) <->
              In id (map X509.Id (X509.Extensions c2))) ->
  orphanTypeForCert (Some c1) = orphanTypeForCert (Some c2).
Proof.
  intros H.
  assert (P : forall c,
             existsb (fun ext => X509.Equal (X509.Id ext) poisonExt)
                     (X509.Extensions c) = true <->
             In poisonExt (map X509.Id (X509.Extensions c))).
  { intros c. rewrite existsb_exists, in_map_iff. split.
    - intros [ext [I E]]. exists ext. split; [now apply Equal_eq|exact I].
    - intros [ext [E I]]. exists ext. split; [exact I|now apply Equal_eq]. }
  unfold orphanTypeForCert.
  destruct (existsb _ (X509.Extensions c1)) eqn:E1;
    destruct (existsb _ (X509.Extensions c2)) eqn:E2; try reflexivity.
  - apply P, H, P in E1. congruence.
  - apply P, H, P in E2. congruence.
Qed.

(** *** The OCSP request and the level of the diagnostic *)

Lemma In_lookupOf cert e : In e (lookupOf cert) -> isLookup e = true.
Proof.
  destruct (lookupOf_single cert) as [ev [E L]]. rewrite E.
  intros [<- | []]. exact L.
Qed.

Lemma In_insertOf cert der regID response e :
  In e (insertOf cert der regID response) -> isInsert e = true.
Proof.
  destruct (insertOf_single cert der regID response) as [ev [E L]]. rewrite E.
  intros [<- | []]. exact L.
Qed.

(** X16: every OCSP request the tool makes, for a log line or for a DER
    file, asks for the status good with reason and revocation time zero, for
    exactly the DER that was decoded from the line or read from the file and
    that parses as a certificate. *)
Theorem ocsp_requests_are_good sa ca st :
  (forall line req,
      In (CallGenerateOCSP req)
         (skipn (List.length (trace st))
                (trace (snd (storeParsedLogLine sa ca line st)))) ->
      req = mkGenerateOCSPRequest (CertDER req) "good" 0 0 /\
      decodes line (CertDER req) /\
      exists cert, ParseCertificate (CertDER req) = inr cert) /\
  (forall derPath regID req,
      In (CallGenerateOCSP req)
         (skipn (List.length (trace st))
                (trace (snd (parseDer sa ca derPath regID st)))) ->
      req = mkGenerateOCSPRequest (CertDER req) "good" 0 0 /\
      ReadFile derPath = inr (CertDER req) /\
      exists cert, ParseCertificate (CertDER req) = inr cert).
Proof.
  assert (K : forall cert der (tail : list event) req,
             (forall e, In e tail -> isOCSP e = false) ->
             In (CallGenerateOCSP req) (lookupOf cert ++ ocspCall der :: tail) ->
             req = mkGenerateOCSPRequest der "good" 0 0).
  { intros cert der tail req Ht H. apply in_app_or in H. destruct H as [H|H].
    - apply In_lookupOf in H. discriminate H.
    - destruct H as [H|H]; [now inversion H|].
      apply Ht in H. discriminate H. }
  assert (Ki : forall cert der regID response e,
             In e (insertOf cert der regID response) -> isOCSP e = false).
  { intros cert der regID response e H. apply In_insertOf in H.
    destruct e; try discriminate H; reflexivity. }
  assert (NL : forall cert req, ~ In (CallGenerateOCSP req) (lookupOf cert)).
  { intros cert req H. apply In_lookupOf in H. discriminate H. }
  split.
  - intros line req H.
    destruct (line_shape sa ca line st) as [evs [T S]]. cbv zeta in T.
    rewrite T, skipn_app, skipn_all, Nat.sub_diag in H. cbn [skipn app] in H.
    destruct S as [ | lvl msg L | der cert lvl msg Dc P | der cert msg Dc P
                  | der cert regID response msg Dc P Rg
                  | der cert regID response Dc P Rg ].
    + contradiction.
    + destruct H as [H|[]]. discriminate H.
    + apply in_app_or in H. destruct H as [H|[H|[]]];
        [now apply NL in H|discriminate H].
    + assert (E : req = mkGenerateOCSPRequest der "good" 0 0).
      { apply (K cert der [Log AuditErr msg] req); [|exact H].
        intros e [<-|[]]. reflexivity. }
      rewrite E. cbn [CertDER]. eauto.
    + assert (E : req = mkGenerateOCSPRequest der "good" 0 0).
      { apply (K cert der _ req) in H; [exact H|].
        intros e He. apply in_app_or in He. destruct He as [He|[<-|[]]];
          [now apply Ki in He|reflexivity]. }
      rewrite E. cbn [CertDER]. eauto.
    + assert (E : req = mkGenerateOCSPRequest der "good" 0 0).
      { apply (K cert der _ req) in H; [exact H|].
        intros e He. now apply Ki in He. }
      rewrite E. cbn [CertDER]. eauto.
  - intros derPath regID req H.
    destruct (parseDer_shape sa ca derPath regID st) as [evs [T S]].
    cbv zeta in T.
    rewrite T, skipn_app, skipn_all, Nat.sub_diag in H. cbn [skipn app] in H.
    destruct S as [ U | err Z F | der msg Z F P | der cert diag Z F P
                  | der cert diag Z F P | der cert response diag Z F P
                  | der cert response Z F P ].
    + contradiction.
    + contradiction.
    + contradiction.
    + now apply NL in H.
    + assert (E : req = mkGenerateOCSPRequest der "good" 0 0).
      { apply (K cert der [] req); [intros e []|exact H]. }
      rewrite E. cbn [CertDER]. eauto.
    + assert (E : req = mkGenerateOCSPRequest der "good" 0 0).
      { apply (K cert der _ req) in H; [exact H|].
        intros e He. now apply Ki in He. }
      rewrite E. cbn [CertDER]. eauto.
    + assert (E : req = mkGenerateOCSPRequest der "good" 0 0).
      { apply (K cert der _ req) in H; [exact H|].
        intros e He. now apply Ki in He. }
      rewrite E. cbn [CertDER]. eauto.
Qed.

Lemma checkDER_err_full sai der typ err st st1 :
  checkDER sai der st = (inl (typ, err), st1) ->
  (exists msg, ParseCertificate der = inl msg /\ st1 = st /\
               isErrAlreadyExists err = false) \/
  (exists cert,
      ParseCertificate der = inr cert /\
      let looked := lookup sai (orphanTypeForCert (Some cert))
                           (SerialToString (X509.SerialNumber cert)) st in
      st1 = snd looked /\
      ((fst looked = None /\ isErrAlreadyExists err = true) \/
       (exists e, fst looked = Some e /\ isErrAlreadyExists err = false))).
Proof.
  unfold checkDER. destruct (ParseCertificate der) as [msg|c] eqn:Hp.
  - cbv [ret]. intros E. inversion E; subst. left. exists msg. auto.
  - unfold bind. cbv beta zeta.
    destruct (lookup sai (orphanTypeForCert (Some c))
                     (SerialToString (X509.SerialNumber c)) st)
      as [r s1] eqn:HL.
    destruct r as [e|]; [destruct (berrorsIsNotFound e)|]; cbv [ret];
      intros E; inversion E; subst; right; exists c;
      (split; [reflexivity|]); rewrite HL; cbn [fst snd];
      (split; [reflexivity|]).
    + right. exists e. auto.
    + left. auto.
Qed.

(** X17: a line's diagnostic is at informational level exactly when the
    existence check found a record for the certificate parsed from the
    line's DER; every other diagnostic of [storeParsedLogLine] is at error or
    audit level. *)
Theorem info_level_iff_already_exists sa ca line st :
  let r := storeParsedLogLine sa ca line st in
  (exists msg,
      In (Log Info msg) (skipn (List.length (trace st)) (trace (snd r)))) <->
  (scannerMatches line = true /\
   exists der cert,
     decodes line der /\ ParseCertificate der = inr cert /\
     fst (lookup sa (orphanTypeForCert (Some cert))
                 (SerialToString (X509.SerialNumber cert)) st) = None).
Proof.
  cbv zeta.
  assert (Sk : forall (st1 : State World) evs lvl msg,
             trace st1 = (trace st ++ evs)%list ->
             skipn (List.length (trace st)) (trace (logged st1 lvl msg))
             = (evs ++ [Log lvl msg])%list).
  { intros st1 evs lvl msg T. rewrite logged_trace, T, <- app_assoc.
    rewrite skipn_app, skipn_all, Nat.sub_diag. reflexivity. }
  assert (Sk0 : forall lvl msg,
             skipn (List.length (trace st)) (trace (logged st lvl msg))
             = [Log lvl msg]).
  { intros. apply (Sk st []). now rewrite app_nil_r. }
  assert (NoInfo : forall (evs : list event) lvl msg,
             (forall e, In e evs -> isLog e = false) -> lvl <> Info ->
             ~ exists m, In (Log Info m) (evs ++ [Log lvl msg])).
  { intros evs lvl msg Hc Hl [m H]. apply in_app_or in H.
    destruct H as [H|[H|[]]]; [apply Hc in H; discriminate H|].
    inversion H. congruence. }
  assert (LogFree : forall cert e, In e (lookupOf cert) -> isLog e = false).
  { intros cert e H. apply In_lookupOf in H. destruct e; try discriminate H;
      reflexivity. }
  destruct (scannerMatches line) eqn:M.
  2:{ rewrite (storeParsedLogLine_unmatched sa ca line st M). cbn [snd].
      rewrite skipn_all. split; [intros [m []]|intros [H _]; discriminate H]. }
  destruct (FindStringSubmatch_shape "cert=" Regexp.lowerHex line)
    as [D | [whole [group D]]]; fold (derOrphan line) in D.
  { rewrite (path_no_der sa ca line st M D). cbn [snd]. rewrite Sk0. split.
    - intros [m [H|[]]]. discriminate H.
    - intros [_ [der [cert [[w [g [D' _]]] _]]]]. congruence. }
  destruct (Hex.DecodeString group) as [msg|der] eqn:X.
  { rewrite (path_bad_hex sa ca line st _ _ _ M D X). cbn [snd]. rewrite Sk0.
    split.
    - intros [m [H|[]]]. discriminate H.
    - intros [_ [der [cert [[w [g [D' X']]] _]]]]. congruence. }
  assert (Uniq : forall der', decodes line der' -> der' = der).
  { intros der' [w [g [D' X']]]. rewrite D in D'. inversion D'; subst.
    congruence. }
  destruct (checkDER sa der st) as [[[typ err] | [cert typ]] st1] eqn:C.
  { rewrite (path_check_failed sa ca line st _ _ _ _ _ _ M D X C). cbn [snd].
    destruct (checkDER_err_full _ _ _ _ _ _ C)
      as [[msg [P [-> A]]] | [cert [P H]]].
    - rewrite A, Sk0. split.
      + intros [m [H|[]]]. discriminate H.
      + intros [_ [der' [cert [Dc [P' _]]]]].
        rewrite (Uniq der' Dc) in P'. congruence.
    - cbv zeta in H. destruct H as [-> H].
      rewrite (Sk _ (lookupOf cert)) by apply lookup_trace.
      destruct H as [[L A] | [e [L A]]]; rewrite A.
      + split; [|intros _; eexists; apply in_or_app; right; left; reflexivity].
        intros _. split; [reflexivity|]. exists der, cert.
        split; [exists whole, group; auto|]. auto.
      + split.
        * intros H. exfalso. revert H. apply NoInfo; [apply LogFree|discriminate].
        * intros [_ [der' [cert' [Dc [P' L']]]]].
          rewrite (Uniq der' Dc) in P'. rewrite P in P'. inversion P'; subst.
          congruence. }
  assert (NotFound : ~ (exists der0 cert0,
                          decodes line der0 /\ ParseCertificate der0 = inr cert0 /\
                          fst (lookup sa (orphanTypeForCert (Some cert0))
                                 (SerialToString (X509.SerialNumber cert0)) st)
                          = None)).
  { intros [der' [cert' [Dc [P' L']]]]. rewrite (Uniq der' Dc) in P'.
    rewrite (checkDER_exists sa der cert' st P' L') in C. discriminate C. }
  destruct (checkDER_ok_inv _ _ _ _ _ _ C) as [P [Ty [_ T]]].
  subst typ. fold (lookupOf cert) in T.
  destruct (FindStringSubmatch_shape "regID=" Regexp.digit line)
    as [R | [rw [rg R]]]; fold (regOrphan line) in R.
  { rewrite (path_no_regID sa ca line st _ _ _ _ _ _ M D X C R). cbn [snd].
    rewrite (Sk _ _ _ _ T). split; [|intros [_ H]; now apply NotFound in H].
    intros H. exfalso. revert H. apply NoInfo; [apply LogFree|discriminate]. }
  destruct (Strconv.ParseInt rg) as [msg|regID] eqn:PI.
  { rewrite (path_bad_regID sa ca line st _ _ _ _ _ _ _ _ _ M D X C R PI).
    cbn [snd]. rewrite (Sk _ _ _ _ T).
    split; [|intros [_ H]; now apply NotFound in H].
    intros H. exfalso. revert H. apply NoInfo; [apply LogFree|discriminate]. }
  pose proof (generateOCSP_trace ca der st1) as TO.
  destruct (generateOCSP ca der st1) as [[e|response] st2] eqn:O; cbn [snd] in TO.
  { rewrite (path_ocsp_failed sa ca line st _ _ _ _ _ _ _ _ _ _ _ M D X C R PI O).
    cbn [snd]. rewrite T, <- app_assoc in TO. rewrite (Sk _ _ _ _ TO).
    split; [|intros [_ H]; now apply NotFound in H].
    intros H. exfalso. revert H. apply NoInfo; [|discriminate].
    intros ev He. apply in_app_or in He. destruct He as [He|[<-|[]]];
      [now apply LogFree in He|reflexivity]. }
  rewrite (path_store sa ca line st _ _ _ _ _ _ _ _ _ _ _ M D X C R PI O).
  pose proof (store_trace sa (orphanTypeForCert (Some cert)) der regID response
                (Time.Add (X509.NotBefore cert) backdateDuration) st2) as TS.
  fold (insertOf cert der regID response) in TS.
  rewrite TO, T, <- !app_assoc in TS.
  assert (CallsOnly : forall ev,
             In ev (lookupOf cert ++ [ocspCall der]
                      ++ insertOf cert der regID response)%list ->
             isLog ev = false).
  { intros ev He. apply in_app_or in He. destruct He as [He|He];
      [now apply LogFree in He|].
    apply in_app_or in He. destruct He as [[<-|[]]|He]; [reflexivity|].
    apply In_insertOf in He. destruct ev; try discriminate He; reflexivity. }
  destruct (store sa _ der regID response _ st2) as [[e|] st3]; cbn [fst snd] in *.
  - rewrite (Sk _ _ _ _ TS). split; [|intros [_ H]; now apply NotFound in H].
    intros H. exfalso. revert H. apply NoInfo; [exact CallsOnly|discriminate].
  - rewrite TS, skipn_app, skipn_all, Nat.sub_diag. cbn [skipn app].
    split; [|intros [_ H]; now apply NotFound in H].
    intros [m H]. apply CallsOnly in H. discriminate H.
Qed.

End OrphanFinder.

Arguments error RemoteError : clear implicits.
Arguments Error {RemoteError}.
Arguments lookup {World RemoteError}.
Arguments checkDER {World RemoteError}.
Arguments generateOCSP {World RemoteError}.
Arguments store {World RemoteError}.
Arguments storeParsedLogLine {World RemoteError}.
Arguments tally {World}.
Arguments processLines {World RemoteError}.
Arguments parseCaLog {World RemoteError}.
Arguments parseDer {World RemoteError}.

(** ** The claims on the test doubles

    The collaborators are the doubles, the backdate is one hour, and every
    run starts from the empty trace. *)

Abbreviation runLine :=
  (storeParsedLogLine Double.text Double.isNotFound Double.parse Double.serial
                      Time.Hour).
Abbreviation runDer :=
  (parseDer Double.text Double.isNotFound Double.parse Double.serial
            Double.readFile Time.Hour).
Abbreviation runLog :=
  (parseCaLog Double.text Double.isNotFound Double.parse Double.serial
              Double.readFile Time.Hour).
Abbreviation ocspRequest der := (mkGenerateOCSPRequest der OCSPStatusGood 0 0).

(** The dates of C1 as Unix seconds, and the hour between them. *)
Example dates_of_2020 :
  Time.Date 2020 1 1 0 0 0 0 = Time.mkTime 1577836800 0 /\
  Time.Date 2019 12 31 23 0 0 0 = Time.mkTime 1577833200 0 /\
  Time.Date 1970 1 1 0 0 0 0 = Time.mkTime 0 0 /\
  Time.Add (Time.Date 2020 1 1 0 0 0 0) Time.Hour = Time.Date 2020 1 1 1 0 0 0 /\
  Time.Add (Time.Date 2020 1 1 0 0 0 0) (- Time.Hour) = Time.Date 2019 12 31 23 0 0 0.
Proof. repeat split; reflexivity. Qed.

(** The library models on small inputs. *)
Example library_samples :
  derOrphan "x cert=[AB] cert=[00ff] y" = ["cert=[00ff]"; "00ff"] /\
  derOrphan "cert=[]" = [] /\
  regOrphan "regID=[12] regID=[3]" = ["regID=[12]"; "12"] /\
  Hex.DecodeString "00fF" = inr [x00; xff]%byte /\
  Hex.DecodeString "00f" = inl Hex.ErrLength /\
  Strconv.ParseInt "9223372036854775807" = inr Int64.max /\
  Strconv.ParseInt "9223372036854775808"
  = inl (Strconv.ErrRange "9223372036854775808") /\
  Strings.SplitLines ("a" ++ Double.nl ++ Double.nl ++ "b") = ["a"; ""; "b"].
Proof. repeat split; reflexivity. Qed.

(** C1 fails as stated: NotBefore is 2020-01-01T00:00:00Z and the backdate
    one hour, yet the certificate insert does not receive
    2019-12-31T23:00:00Z, nor the precertificate insert its nanoseconds; they
    receive 2020-01-01T01:00:00Z. *)
Lemma issued_time_is_not_2019 :
  let r := runLine Double.emptyStorage Double.goodOCSP Double.certLine Double.start in
  let rp := runLine Double.emptyStorage Double.goodOCSP Double.precertLine Double.start in
  X509.NotBefore Double.cert2020 = Time.Date 2020 1 1 0 0 0 0 /\
  X509.NotBefore Double.precert2020 = Time.Date 2020 1 1 0 0 0 0 /\
  trace (snd r) =
    [CallGetCertificate "1"; CallGenerateOCSP (ocspRequest [x01]%byte);
     CallAddCertificate [x01]%byte 7 ["O"; "K"]%byte (Time.Date 2020 1 1 1 0 0 0)] /\
  trace (snd rp) =
    [CallGetPrecertificate "2"; CallGenerateOCSP (ocspRequest [x02]%byte);
     CallAddPrecertificate
       (mkAddCertificateRequest [x02]%byte 7 ["O"; "K"]%byte 1577840400000000000)] /\
  ~ (exists der regID ocsp,
        In (CallAddCertificate der regID ocsp (Time.Date 2019 12 31 23 0 0 0))
           (trace (snd r))) /\
  ~ (exists der regID ocsp,
        In (CallAddPrecertificate
              (mkAddCertificateRequest der regID ocsp
                 (Time.UnixNano (Time.Date 2019 12 31 23 0 0 0))))
           (trace (snd rp))).
Proof.
  cbv zeta. repeat split; try reflexivity.
  - intros [der [regID [ocsp H]]]. vm_compute in H.
    repeat (destruct H as [H|H]; [discriminate H|]). exact H.
  - intros [der [regID [ocsp H]]]. vm_compute in H.
    repeat (destruct H as [H|H]; [discriminate H|]). exact H.
Qed.

(** The certificate line and the certificate file of the doubles, for C1. *)
Lemma issued_time_2020_witness :
  let ins typ der :=
    match typ with
    | certOrphan =>
        [CallAddCertificate der 7 ["O"; "K"]%byte (Time.Date 2020 1 1 1 0 0 0)]
    | precertOrphan =>
        [CallAddPrecertificate
           (mkAddCertificateRequest der 7 ["O"; "K"]%byte 1577840400000000000)]
    | unknownOrphan => []
    end in
  (exists tail,
      trace (snd (runLine Double.emptyStorage Double.goodOCSP Double.certLine
                          Double.start)) =
        ([CallGetCertificate "1"; CallGenerateOCSP (ocspRequest [x01]%byte)]
           ++ ins certOrphan [x01]%byte ++ tail)%list) /\
  trace (snd (runDer Double.emptyStorage Double.goodOCSP "cert.der" 7 Double.start)) =
    ([CallGetCertificate "1"; CallGenerateOCSP (ocspRequest [x01]%byte)]
       ++ ins certOrphan [x01]%byte)%list.
Proof.
  destruct (issued_time_2020 unit Double.TestError Double.text Double.isNotFound
              Double.parse Double.serial Double.readFile Time.Hour
              Double.emptyStorage Double.goodOCSP Double.cert2020
              eq_refl eq_refl) as [Hlog Hfile].
  split.
  - destruct (Hlog Double.certLine Double.start "cert=[01]" "01" [x01]%byte
                certOrphan
                (mkState tt [CallGetCertificate "1"]) "regID=[7]" "7" 7
                ["O"; "K"]%byte
                (mkState tt [CallGetCertificate "1";
                             CallGenerateOCSP (ocspRequest [x01]%byte)])
                eq_refl eq_refl eq_refl eq_refl eq_refl eq_refl eq_refl)
      as [_ [tail [T _]]].
    exists tail. exact T.
  - destruct (Hfile "cert.der" 7 Double.start [x01]%byte certOrphan
                (mkState tt [CallGetCertificate "1"]) ["O"; "K"]%byte
                (mkState tt [CallGetCertificate "1";
                             CallGenerateOCSP (ocspRequest [x01]%byte)])
                eq_refl ltac:(discriminate) eq_refl eq_refl eq_refl)
      as [_ T].
    exact T.
Defined.

(** C2 fails as stated: a labelled line with the marker and no
    registration id has already made a remote call, the existence lookup, by
    the time the missing id is reported. *)
Lemma missing_regID_after_lookup :
  let r := runLine Double.emptyStorage Double.goodOCSP Double.bareLine Double.start in
  hasOrphanLabel Double.bareLine = true /\
  hasDerMarker Double.bareLine = true /\
  regOrphan Double.bareLine = [] /\
  trace (snd r) =
    [CallGetCertificate "1";
     Log AuditErr "regID variable is empty, [orphaning certificate: cert=[01]]"] /\
  count isRemoteCall (trace (snd r)) <> 0%nat.
Proof. cbv zeta. repeat split; try reflexivity. vm_compute. discriminate. Qed.

(** The line without a registration id against an empty storage, for C2. *)
Lemma missing_regID_abandons_witness :
  let r := runLine Double.emptyStorage Double.goodOCSP Double.bareLine Double.start in
  scannerMatches Double.bareLine = true /\
  regOrphan Double.bareLine = [] /\
  r = ((true, false, certOrphan),
       mkState tt
         [CallGetCertificate "1";
          Log AuditErr "regID variable is empty, [orphaning certificate: cert=[01]]"]) /\
  count isLookup (trace (snd r)) = 1%nat.
Proof.
  cbv zeta.
  destruct (missing_regID_abandons unit Double.TestError Double.text
              Double.isNotFound Double.parse Double.serial Time.Hour
              Double.emptyStorage Double.goodOCSP Double.bareLine Double.start
              eq_refl eq_refl) as [_ [_ [_ [_ H]]]].
  destruct (H "cert=[01]" "01" [x01]%byte Double.cert2020
              (remoteError Double.TestError Double.NotFound)
              eq_refl eq_refl eq_refl eq_refl eq_refl) as [E C].
  split; [reflexivity|]. split; [reflexivity|]. split; [exact E|exact C].
Defined.

(** C3 fails as stated: the insert hits a duplicate after the lookup
    missed, and the failure is logged at audit level, not at informational
    level. *)
Lemma duplicate_insert_is_not_informational :
  let r := runLine Double.racedStorage Double.goodOCSP Double.certLine Double.start in
  AddCertificate Double.racedStorage [x01]%byte 7 ["O"; "K"]%byte
                 (Time.Date 2020 1 1 1 0 0 0) tt = (Some Double.Duplicate, tt) /\
  fst r = (true, false, certOrphan) /\
  trace (snd r) =
    [CallGetCertificate "1"; CallGenerateOCSP (ocspRequest [x01]%byte);
     CallAddCertificate [x01]%byte 7 ["O"; "K"]%byte (Time.Date 2020 1 1 1 0 0 0);
     Log AuditErr
         "Failed to store certificate: duplicate entry, [orphaning certificate: cert=[01], regID=[7]]"] /\
  ~ (exists msg, In (Log Info msg) (trace (snd r))).
Proof.
  cbv zeta. repeat split; try reflexivity.
  intros [msg H]. vm_compute in H.
  repeat (destruct H as [H|H]; [discriminate H|]). exact H.
Qed.

(** The certificate line against a storage whose insert hits a duplicate,
    for C3. *)
Lemma insert_failure_is_audited_witness :
  let st' :=
    mkState tt
      [CallGetCertificate "1"; CallGenerateOCSP (ocspRequest [x01]%byte);
       CallAddCertificate [x01]%byte 7 ["O"; "K"]%byte (Time.Date 2020 1 1 1 0 0 0);
       Log AuditErr
           "Failed to store certificate: duplicate entry, [orphaning certificate: cert=[01], regID=[7]]"] in
  runLine Double.racedStorage Double.goodOCSP Double.certLine Double.start
  = ((true, false, certOrphan), st') /\
  processLines Double.text Double.isNotFound Double.parse Double.serial Time.Hour
               Double.racedStorage Double.goodOCSP
               [Double.certLine; Double.precertLine] noStats Double.start
  = processLines Double.text Double.isNotFound Double.parse Double.serial Time.Hour
                 Double.racedStorage Double.goodOCSP
                 [Double.precertLine] (mkStats 1 0 0 0) st'.
Proof.
  cbv zeta.
  destruct (insert_failure_is_audited unit Double.TestError Double.text
              Double.isNotFound Double.parse Double.serial Time.Hour
              Double.racedStorage Double.goodOCSP Double.certLine
              [Double.precertLine] noStats Double.start
              "cert=[01]" "01" [x01]%byte Double.cert2020 certOrphan
              (mkState tt [CallGetCertificate "1"]) "regID=[7]" "7" 7
              ["O"; "K"]%byte
              (mkState tt [CallGetCertificate "1";
                           CallGenerateOCSP (ocspRequest [x01]%byte)])
              (remoteError Double.TestError Double.Duplicate)
              eq_refl eq_refl eq_refl eq_refl eq_refl eq_refl eq_refl eq_refl)
    as [E P].
  split; [exact E|exact P].
Defined.

(** The certificate line against a storage that holds every serial, for
    C4. *)
Lemma existing_record_short_circuits_witness :
  let r := runLine Double.fullStorage Double.goodOCSP Double.certLine Double.start in
  fst (lookup Double.fullStorage certOrphan "1" Double.start) = None /\
  fst r = (true, false, certOrphan) /\
  trace (snd r) =
    [CallGetCertificate "1";
     Log Info
         "Certificate already exists in DB, [orphaning certificate: cert=[01], regID=[7]]"].
Proof.
  cbv zeta.
  destruct (existing_record_short_circuits unit Double.TestError Double.text
              Double.isNotFound Double.parse Double.serial Time.Hour
              Double.fullStorage Double.goodOCSP Double.certLine Double.start
              "cert=[01]" "01" [x01]%byte Double.cert2020
              eq_refl eq_refl eq_refl eq_refl eq_refl) as [R [T _]].
  split; [reflexivity|]. split; [exact R|exact T].
Defined.

(** C5 fails as stated: a precertificate with a well-formed registration
    id whose lookup reports not-found is not inserted when the OCSP request
    fails. *)
Lemma precertificate_not_inserted_without_ocsp :
  let r := runLine Double.emptyStorage Double.downOCSP Double.precertLine Double.start in
  Double.parse [x02]%byte = inr Double.precert2020 /\
  orphanTypeForCert (Some Double.precert2020) = precertOrphan /\
  regOrphan Double.precertLine = ["regID=[7]"; "7"] /\
  GetPrecertificate Double.emptyStorage "2" tt = (Some Double.NotFound, tt) /\
  Double.isNotFound Double.NotFound = true /\
  trace (snd r) =
    [CallGetPrecertificate "2"; CallGenerateOCSP (ocspRequest [x02]%byte);
     Log AuditErr
         "Couldn't generate OCSP: unavailable, [orphaning precertificate: cert=[02], regID=[7]]"] /\
  count isPrecertInsert (trace (snd r)) <> 1%nat.
Proof. cbv zeta. repeat split; try reflexivity. vm_compute. discriminate. Qed.

(** The precertificate line against an empty storage, for C5. *)
Lemma precertificate_inserted_once_witness :
  let r := runLine Double.emptyStorage Double.goodOCSP Double.precertLine Double.start in
  (exists ext, In ext (X509.Extensions Double.precert2020) /\
               X509.Id ext = poisonExt) /\
  count isPrecertInsert (trace (snd r)) = 1%nat /\
  count isInsert (trace (snd r)) = 1%nat /\
  exists tail,
    trace (snd r) =
      ([CallGetPrecertificate "2"; CallGenerateOCSP (ocspRequest [x02]%byte);
        CallAddPrecertificate
          (mkAddCertificateRequest [x02]%byte 7 ["O"; "K"]%byte
                                   (1577836800000000000 + 3600000000000))]
         ++ tail)%list.
Proof.
  cbv zeta.
  assert (P : exists ext, In ext (X509.Extensions Double.precert2020) /\
                          X509.Id ext = poisonExt).
  { exists (X509.mkExtension poisonExt true [x05; x00]%byte).
    split; [right; left; reflexivity|reflexivity]. }
  destruct (precertificate_inserted_once unit Double.TestError Double.text
              Double.isNotFound Double.parse Double.serial Time.Hour
              Double.emptyStorage Double.goodOCSP Double.precertLine Double.start
              "cert=[02]" "02" [x02]%byte Double.precert2020 "regID=[7]" "7" 7
              Double.NotFound tt ["O"; "K"]%byte tt
              eq_refl eq_refl eq_refl eq_refl P eq_refl eq_refl eq_refl eq_refl
              eq_refl) as [_ [[tail [T _]] [I [PI N]]]].
  split; [exact P|]. split; [exact PI|]. split; [exact I|].
  exists tail. exact T.
Defined.


(** The two certificates of the doubles and the nil certificate, for C7. *)
Lemma orphanTypeForCert_classification_witness :
  orphanTypeForCert (Some Double.precert2020) = precertOrphan /\
  orphanTypeForCert (Some Double.cert2020) = certOrphan /\
  orphanTypeForCert None = unknownOrphan.
Proof.
  split; [|split].
  - destruct (orphanTypeForCert_classification (Some Double.precert2020))
      as [[[_ H] | [_ H]] _]; [exact H|discriminate H].
  - destruct (orphanTypeForCert_classification (Some Double.cert2020))
      as [[[_ H] | [_ H]] _]; [discriminate H|exact H].
  - destruct (orphanTypeForCert_classification None) as [_ [_ H]].
    apply H. reflexivity.
Defined.

(** C8 fails as stated: in single-file mode the record found by the
    existence check aborts the process. *)
Lemma already_exists_aborts_single_file :
  fst (lookup Double.fullStorage certOrphan "1" Double.start) = None /\
  runDer Double.fullStorage Double.goodOCSP "cert.der" 7 Double.start
  = (inl (FailExit
            "Pre-AddCertificate checks failed: Certificate already exists in DB"),
     mkState tt [CallGetCertificate "1"]).
Proof. split; reflexivity. Qed.

(** The certificate line and the certificate file against a storage that
    holds every serial, for C8. *)
Lemma already_exists_by_mode_witness :
  let st' :=
    mkState tt
      [CallGetCertificate "1";
       Log Info
           "Certificate already exists in DB, [orphaning certificate: cert=[01], regID=[7]]"] in
  runLine Double.fullStorage Double.goodOCSP Double.certLine Double.start
  = ((true, false, certOrphan), st') /\
  processLines Double.text Double.isNotFound Double.parse Double.serial Time.Hour
               Double.fullStorage Double.goodOCSP
               [Double.certLine; Double.precertLine] noStats Double.start
  = processLines Double.text Double.isNotFound Double.parse Double.serial Time.Hour
                 Double.fullStorage Double.goodOCSP
                 [Double.precertLine] (mkStats 1 0 0 0) st' /\
  runDer Double.fullStorage Double.goodOCSP "cert.der" 7 Double.start
  = (inl (FailExit
            "Pre-AddCertificate checks failed: Certificate already exists in DB"),
     mkState tt [CallGetCertificate "1"]).
Proof.
  cbv zeta.
  destruct (already_exists_by_mode unit Double.TestError Double.text
              Double.isNotFound Double.parse Double.serial Double.readFile
              Time.Hour Double.fullStorage Double.goodOCSP [x01]%byte
              Double.cert2020 Double.start eq_refl eq_refl) as [B [F _]].
  destruct (B Double.certLine "cert=[01]" "01" [Double.precertLine] noStats
              eq_refl eq_refl eq_refl) as [E P].
  split; [exact E|]. split; [exact P|].
  exact (F "cert.der" 7 eq_refl ltac:(discriminate) eq_refl).
Defined.

(** The log file of the doubles, for C9. *)
Lemma counters_follow_determined_type_witness :
  exists c st',
    runLog Double.emptyStorage Double.goodOCSP "ca.log" Double.start = (inr c, st') /\
    0 <= certOrphansAdded c <= certOrphansFound c /\
    0 <= precertOrphansAdded c <= precertOrphansFound c.
Proof.
  destruct (counters_follow_determined_type unit Double.TestError Double.text
              Double.isNotFound Double.parse Double.serial Double.readFile
              Time.Hour Double.emptyStorage Double.goodOCSP) as [_ [_ [_ H]]].
  eapply H; [reflexivity|reflexivity|vm_compute; reflexivity].
Defined.


(** A line with two payloads, the first with an uppercase digit: the
    pattern finds the second and the line is decoded and stored. *)
Example second_payload_is_decoded :
  derOrphan Double.twiceLine = ["cert=[01]"; "01"] /\
  fst (runLine Double.emptyStorage Double.goodOCSP Double.twiceLine Double.start)
  = (true, true, certOrphan).
Proof. split; reflexivity. Qed.

(** In the batch a line that is no orphan record is not counted, and the
    loop logs its unknown type at error level. *)
Example unmatched_line_in_batch :
  processLines Double.text Double.isNotFound Double.parse Double.serial Time.Hour
               Double.emptyStorage Double.goodOCSP [Double.otherLine] noStats
               Double.start
  = (noStats, mkState tt [Log Err "Found orphan type unknown"]).
Proof. reflexivity. Qed.

(** A batch of a certificate line, an unmatched line and a precertificate
    line against an empty storage. *)
Example batch_counts :
  fst (runLog Double.emptyStorage Double.goodOCSP "ca.log" Double.start)
  = inr (mkStats 1 1 1 1).
Proof. reflexivity. Qed.

(** ** The further properties on the test doubles *)

(** An even payload and an odd one, for X2. *)
Lemma hex_payload_decodes_iff_even_witness :
  (exists der, Hex.DecodeString "01" = inr der /\
               (2 * List.length der = 2)%nat) /\
  runLine Double.emptyStorage Double.goodOCSP
          "orphaning certificate: cert=[012], regID=[7]" Double.start
  = ((true, false, unknownOrphan),
     mkState tt
       [Log AuditErr
            "Couldn't decode hex: encoding/hex: odd length hex string, [orphaning certificate: cert=[012], regID=[7]]"]).
Proof.
  split.
  - exact (hex_payload_decodes_iff_even unit Double.TestError Double.text
             Double.isNotFound Double.parse Double.serial Time.Hour
             Double.emptyStorage Double.goodOCSP Double.certLine Double.start
             "cert=[01]" "01" eq_refl eq_refl).
  - exact (hex_payload_decodes_iff_even unit Double.TestError Double.text
             Double.isNotFound Double.parse Double.serial Time.Hour
             Double.emptyStorage Double.goodOCSP
             "orphaning certificate: cert=[012], regID=[7]" Double.start
             "cert=[012]" "012" eq_refl eq_refl).
Defined.


(** A labelled line with the marker and no group, and one without the
    marker, for X4. *)
Lemma marker_decides_failed_match_witness :
  runLine Double.emptyStorage Double.goodOCSP "orphaning certificate: cert=none"
          Double.start
  = ((true, false, unknownOrphan),
     mkState tt
       [Log AuditErr "Didn't match regex for cert: orphaning certificate: cert=none"]) /\
  runLine Double.emptyStorage Double.goodOCSP "orphaning certificate: none"
          Double.start
  = ((false, false, unknownOrphan), Double.start).
Proof.
  split.
  - destruct (marker_decides_failed_match unit Double.TestError Double.text
                Double.isNotFound Double.parse Double.serial Time.Hour
                Double.emptyStorage Double.goodOCSP
                "orphaning certificate: cert=none" Double.start) as [_ H].
    exact (H eq_refl eq_refl).
  - destruct (marker_decides_failed_match unit Double.TestError Double.text
                Double.isNotFound Double.parse Double.serial Time.Hour
                Double.emptyStorage Double.goodOCSP
                "orphaning certificate: none" Double.start) as [_ H].
    exact (H eq_refl eq_refl).
Defined.

(** A certificate DER under the precertificate label, with its fields in
    another order, against the certificate line, for X8. *)
Lemma label_is_only_a_filter_witness :
  let other := "orphaning precertificate: regID=[7] cert=[01] err=[x]" in
  fst (runLine Double.emptyStorage Double.goodOCSP other Double.start)
  = (true, true, certOrphan) /\
  fst (runLine Double.emptyStorage Double.goodOCSP Double.certLine Double.start)
  = fst (runLine Double.emptyStorage Double.goodOCSP other Double.start) /\
  filter isRemoteCall
    (trace (snd (runLine Double.emptyStorage Double.goodOCSP Double.certLine
                         Double.start)))
  = filter isRemoteCall
      (trace (snd (runLine Double.emptyStorage Double.goodOCSP other
                           Double.start))).
Proof.
  cbv zeta.
  destruct (label_is_only_a_filter unit Double.TestError Double.text
              Double.isNotFound Double.parse Double.serial Time.Hour
              Double.emptyStorage Double.goodOCSP Double.certLine
              "orphaning precertificate: regID=[7] cert=[01] err=[x]"
              Double.start eq_refl eq_refl eq_refl eq_refl) as [R [_ T]].
  split; [reflexivity|]. split; [exact R|exact T].
Defined.

(** An empty line, a line that is no orphan record and a line with an odd
    payload, for X9. *)
Lemma batch_skips_and_logs_witness :
  processLines Double.text Double.isNotFound Double.parse Double.serial Time.Hour
               Double.emptyStorage Double.goodOCSP
               [""; Double.otherLine] noStats Double.start
  = (noStats, mkState tt [Log Err "Found orphan type unknown"]).
Proof.
  destruct (batch_skips_and_logs unit Double.TestError Double.text
              Double.isNotFound Double.parse Double.serial Time.Hour
              Double.emptyStorage Double.goodOCSP "" [Double.otherLine]
              noStats Double.start) as [H1 _].
  rewrite (H1 eq_refl).
  destruct (batch_skips_and_logs unit Double.TestError Double.text
              Double.isNotFound Double.parse Double.serial Time.Hour
              Double.emptyStorage Double.goodOCSP Double.otherLine []
              noStats Double.start) as [_ [H2 _]].
  rewrite (H2 eq_refl eq_refl). reflexivity.
Defined.

(** The log file of the doubles, for X10. *)
Lemma counters_account_for_calls_witness :
  exists c evs,
    fst (runLog Double.emptyStorage Double.goodOCSP "ca.log" Double.start) = inr c /\
    certOrphansFound c = Z.of_nat (count (isLookupOf certOrphan) evs) /\
    precertOrphansFound c = Z.of_nat (count (isLookupOf precertOrphan) evs) /\
    certOrphansAdded c <= Z.of_nat (count (isInsertOf certOrphan) evs) /\
    precertOrphansAdded c <= Z.of_nat (count (isInsertOf precertOrphan) evs).
Proof.
  destruct (counters_account_for_calls unit Double.TestError Double.text
              Double.isNotFound Double.parse Double.serial Double.readFile
              Time.Hour Double.emptyStorage Double.goodOCSP "ca.log"
              (list_byte_of_string
                 (Double.certLine ++ Double.nl ++ "started" ++ Double.nl
                    ++ Double.precertLine ++ Double.nl))
              Double.start eq_refl eq_refl ltac:(vm_compute; reflexivity))
    as [c [evs [R [_ H]]]].
  exists c, evs. split; [exact R|exact H].
Defined.

(** The remembering storage keeps what it stored. *)
Lemma memory_insert_then_found typ der regID response issued
      (st0 : State Memory.World) cert :
  Double.parse der = inr cert ->
  typ = orphanTypeForCert (Some cert) ->
  fst (store Memory.storage typ der regID response issued st0) = None ->
  fst (lookup Memory.storage typ (Double.serial (X509.SerialNumber cert))
              (snd (store Memory.storage typ der regID response issued st0)))
  = None.
Proof.
  intros P -> S.
  assert (F : forall s l, Memory.find s (s :: l) = None).
  { intros s l. unfold Memory.find, Memory.has. cbn [existsb].
    now rewrite String.eqb_refl. }
  destruct (orphanTypeForCert_parsed cert) as [T|T]; rewrite T in *;
    cbv [store lookup bind call ret liftErr option_map] in *;
    cbn [AddCertificate AddPrecertificate GetCertificate GetPrecertificate
           Memory.storage Der] in *;
    unfold Memory.serialOf in *; rewrite P in *.
  - destruct (Memory.has _ (Memory.certs (world st0))); cbn in S;
      [discriminate S|]. cbn. now rewrite F.
  - destruct (Memory.has _ (Memory.precerts (world st0))); cbn in S;
      [discriminate S|]. cbn. now rewrite F.
Qed.

(** The certificate line twice against the remembering storage, for X13. *)
Lemma rerun_adds_nothing_witness :
  let run := storeParsedLogLine Double.text Double.isNotFound Double.parse
                                Double.serial Time.Hour Memory.storage Memory.ocsp
                                Double.certLine in
  fst (run Memory.start) = (true, true, certOrphan) /\
  fst (run (snd (run Memory.start))) = (true, false, certOrphan) /\
  count isInsert (trace (snd (run (snd (run Memory.start))))) = 1%nat.
Proof.
  cbv zeta.
  destruct (rerun_adds_nothing Memory.World Double.TestError Double.text
              Double.isNotFound Double.parse Double.serial Time.Hour
              Memory.storage Memory.ocsp Double.certLine Memory.start
              memory_insert_then_found eq_refl) as [R _].
  split; [reflexivity|]. split; [exact R|reflexivity].
Defined.

(** The certificate of the doubles, signed at one o'clock with a backdate of
    one hour, for X14. *)
Lemma backdating_recovers_signing_time_witness :
  Time.Add (X509.NotBefore Double.cert2020) Time.Hour = Time.Date 2020 1 1 1 0 0 0.
Proof.
  destruct (backdating_recovers_signing_time Time.Hour Double.cert2020
              (Time.Date 2020 1 1 1 0 0 0) [] 0 []
              ltac:(unfold Time.wellFormed; cbn; lia) eq_refl) as [E _].
  exact E.
Defined.

(** The precertificate of the doubles and one with the same ids in another
    order and not critical, for X15. *)
Lemma classification_depends_on_ids_witness :
  orphanTypeForCert (Some Double.precert2020)
  = orphanTypeForCert
      (Some (X509.mkCertificate 9 (Time.Date 2021 6 1 0 0 0 0)
               [X509.mkExtension poisonExt false [];
                X509.mkExtension [2; 5; 29; 19] false [];
                X509.mkExtension poisonExt false []])).
Proof.
  apply classification_depends_on_ids. intros id. cbn. tauto.
Defined.

(** The requests of the certificate line and of the certificate file, for
    X16. *)
Lemma ocsp_requests_are_good_witness :
  let req := mkGenerateOCSPRequest [x01]%byte "good" 0 0 in
  In (CallGenerateOCSP req)
     (trace (snd (runLine Double.emptyStorage Double.goodOCSP Double.certLine
                          Double.start))) /\
  decodes Double.certLine (CertDER req) /\
  Double.readFile "cert.der" = inr (CertDER req).
Proof.
  cbv zeta.
  destruct (ocsp_requests_are_good unit Double.TestError Double.text
              Double.isNotFound Double.parse Double.serial Double.readFile
              Time.Hour Double.emptyStorage Double.goodOCSP Double.start)
    as [L F].
  split; [right; left; reflexivity|]. split.
  - exact (proj1 (proj2 (L Double.certLine
                           (mkGenerateOCSPRequest [x01]%byte "good" 0 0)
                           (or_intror (or_introl eq_refl))))).
  - exact (proj1 (proj2 (F "cert.der" 7
                           (mkGenerateOCSPRequest [x01]%byte "good" 0 0)
                           (or_intror (or_introl eq_refl))))).
Defined.

(** The certificate line against a storage that holds every serial, for
    X17. *)
Lemma info_level_iff_already_exists_witness :
  exists msg,
    In (Log Info msg)
       (trace (snd (runLine Double.fullStorage Double.goodOCSP Double.certLine
                            Double.start))).
Proof.
  apply (proj2 (info_level_iff_already_exists unit Double.TestError Double.text
                  Double.isNotFound Double.parse Double.serial Time.Hour
                  Double.fullStorage Double.goodOCSP Double.certLine
                  Double.start)).
  split; [reflexivity|].
  exists [x01]%byte, Double.cert2020.
  split; [exists "cert=[01]", "01"; split; reflexivity|].
  split; reflexivity.
Defined.
